(** * UK rail dashboard: the loader and the filter/aggregation queries

    A shallow embedding of [uk_Rails_DS.py].  A DataFrame is the list of its
    rows, in index order; a cell that pandas holds as NaN/NaT (a blank CSV
    cell, a coerced parse failure) is [None].  Prices and delays are floats in
    the source and exact rationals ([Qc]) here: the rounding of float64 is
    not modelled.

    Each column has the dtype the source expects: text for the dates, times,
    stations and categories, float for Price.  A text column is a column of
    texts and blanks; [read_csv] gives a column that holds blanks only the
    dtype float64, which matters where the source adds a string to it.

    pandas itself is outside the repository, and the source pins no version
    of it.  What depends on the installation is a parameter: the date and time
    parsers (class [DateParsers]), whether a chained in-place update reaches
    the table (class [Pandas]: Copy-on-Write, the rule of pandas 3), and the
    order in which an unstable sort leaves equal entries (class [Sorting]).
    The counting, grouping, quantile and selection primitives are written out
    from their documented behaviour. *)

From Stdlib Require Import QArith Qcanon Qround Lqa Ascii String.
From stdpp Require Import base tactics option list numbers strings sorting.

Local Open Scope string_scope.
Local Open Scope Z_scope.

(** ** Cells and columns *)

(** A float cell: [None] is NaN. *)
Abbreviation float := (option Qc).

(** A datetime64[ns] cell: nanoseconds since the epoch, [None] is NaT. *)
Abbreviation Timestamp := Z.

(** One row of the table read by [pd.read_csv]; every cell may be blank. *)
Record CsvRow := {
  csv_Date_of_Purchase : option string;
  csv_Date_of_Journey : option string;
  csv_Departure_Time : option string;
  csv_Arrival_Time : option string;
  csv_Actual_Arrival_Time : option string;
  csv_Departure_Station : option string;
  csv_Arrival_Destination : option string;
  csv_Railcard : option string;
  csv_Reason_for_Delay : option string;
  csv_Ticket_Class : option string;
  csv_Ticket_Type : option string;
  csv_Purchase_Type : option string;
  csv_Journey_Status : option string;
  csv_Price : float
}.

(** One row of the DataFrame that [load_data] builds and returns. *)
Record Row := {
  Date_of_Purchase : option Timestamp;
  Date_of_Journey : option Timestamp;
  Departure_Time : option string;
  Arrival_Time : option string;
  Actual_Arrival_Time : option string;
  Departure_Station : option string;
  Arrival_Destination : option string;
  Railcard : option string;
  Reason_for_Delay : option string;
  Ticket_Class : option string;
  Ticket_Type : option string;
  Purchase_Type : option string;
  Journey_Status : option string;
  Price : float;
  Departure_Datetime : option Timestamp;
  Arrival_Datetime : option Timestamp;
  Actual_Arrival_Datetime : option Timestamp;
  Route : option string;
  Departure_Hour : option Z;
  Delay_in_Mins : float
}.

Abbreviation DataFrame := (list Row).

(** The columns of the loop [for col in ['Departure', 'Arrival',
    'Actual Arrival']]: [f'{col} Time'] and [f'{col} Datetime']. *)
Inductive time_col := Departure | Arrival | Actual_Arrival.

Definition time_of (col : time_col) : CsvRow → option string :=
  match col with
  | Departure => csv_Departure_Time
  | Arrival => csv_Arrival_Time
  | Actual_Arrival => csv_Actual_Arrival_Time
  end.


(** ** Exceptions of the loader *)

Inductive exn :=
  | DataSourceNotFound
      (* read_csv raised FileNotFoundError: st.error, then st.stop() *)
  | DateParseError (raw : string)
      (* to_datetime(format='mixed') met the string [raw], which it cannot
         parse.  The message of pandas also gives a position, which is the
         row only when pandas parses the column cell by cell and not its
         distinct values; the position is left out here. *)
  | UFuncTypeError
      (* a float64 column + a str: numpy cannot add them *).

Inductive result (A : Type) :=
  | Ok (a : A)
  | Raise (e : exn).
Arguments Ok {A} a.
Arguments Raise {A} e.

Global Instance result_bind : MBind result := λ A B k m,
  match m with
  | Ok a => k a
  | Raise e => Raise e
  end.

Global Instance result_ret : MRet result := λ A a, Ok a.

(** ** Element-wise pandas operations *)

(** [Series.fillna(value)]. *)
Definition fillna (value : string) (cell : option string) : option string :=
  match cell with
  | Some s => Some s
  | None => Some value
  end.

(** [+] on object columns: a missing operand makes the result missing. *)
Definition str_add (a b : option string) : option string :=
  match a, b with
  | Some x, Some y => Some (x +:+ y)
  | _, _ => None
  end.

(** The dtype that [read_csv] gives a text column: float64 when the column
    has rows and every cell is blank (all NaN), object otherwise. *)
Definition float64_dtype (col : list (option string)) : bool :=
  bool_decide (col ≠ [] ∧ Forall (λ cell, cell = None) col).

(** [col + s] for a string [s]: numpy raises on a float64 column; on an
    object column the string is appended cell by cell. *)
Definition add_str (col : list (option string)) (s : string)
  : result (list (option string)) :=
  if float64_dtype col then Raise UFuncTypeError
  else Ok ((λ cell, str_add cell (Some s)) <$> col).

(** [Series.dt.hour]. *)
Definition dt_hour (t : option Timestamp) : option Z :=
  match t with
  | Some ns => Some ((ns / 3600000000000) mod 24)
  | None => None
  end.

(** [(a - b).dt.total_seconds() / 60]. *)
Definition minutes_between (a b : option Timestamp) : float :=
  match a, b with
  | Some x, Some y =>
      Some (Q2Qc (inject_Z (x - y) / inject_Z 1000000000) / Q2Qc (inject_Z 60))%Qc
  | _, _ => None
  end.

(** Float arithmetic and comparison with NaN. *)
Definition fsub (a b : float) : float :=
  match a, b with
  | Some x, Some y => Some (x - y)%Qc
  | _, _ => None
  end.

Definition fadd (a b : float) : float :=
  match a, b with
  | Some x, Some y => Some (x + y)%Qc
  | _, _ => None
  end.

Definition fmul (a b : float) : float :=
  match a, b with
  | Some x, Some y => Some (x * y)%Qc
  | _, _ => None
  end.

Definition fge (a b : float) : bool :=
  match a, b with
  | Some x, Some y => bool_decide (y ≤ x)%Qc
  | _, _ => false
  end.

Definition fle (a b : float) : bool :=
  match a, b with
  | Some x, Some y => bool_decide (x ≤ y)%Qc
  | _, _ => false
  end.

(** ** [Series.quantile] (linear interpolation, NaN skipped) *)

Definition sort_values_asc (xs : list Qc) : list Qc := merge_sort Qcle xs.

Definition quantile (col : list float) (q : Qc) : float :=
  let values := sort_values_asc (omap id col) in
  match values with
  | [] => None
  | first :: _ =>
      let n := Z.of_nat (length values) in
      let h := (Q2Qc (inject_Z (n - 1)) * q)%Qc in
      let lo := Qfloor h in
      let hi := Z.min (lo + 1) (n - 1) in
      let a := nth (Z.to_nat lo) values first in
      let b := nth (Z.to_nat hi) values first in
      Some (a + (b - a) * (h - Q2Qc (inject_Z lo)))%Qc
  end.

(** ** [load_data] *)

(** The installed pandas: with Copy-on-Write (the rule from pandas 3 on, an
    option before) [df[col]] is a temporary object of its own, and an
    in-place method called on it leaves [df] as it was. *)
Class Pandas := { copy_on_write : bool }.

(** pandas 2 as installed, and pandas with Copy-on-Write in force. *)
Definition pandas2 : Pandas := {| copy_on_write := false |}.
Definition copy_on_write_mode : Pandas := {| copy_on_write := true |}.

(** The pandas date and time parsers that [load_data] calls. *)
Class DateParsers := {
  (** The parser behind [pd.to_datetime(s, format='mixed')] for one string:
      [None] when it raises. *)
  parse_mixed : string → option Timestamp;
  (** [Series.astype(str)] on a datetime column: the text of one cell, which
      may depend on the whole column (time part shown or not). *)
  astype_str : list (option Timestamp) → option Timestamp → string;
  (** The parser behind [pd.to_datetime(col, errors='coerce')] for one string
      of the column [col] (the format is guessed from the column): [None]
      when the string does not parse. *)
  parse_coerce : list (option string) → string → option Timestamp
}.

Section Loader.

Context `{DateParsers} {version : Pandas}.

(** [df[col].fillna(value, inplace=True)], as far as [df] goes: the column of
    [df] is filled unless [df[col]] is a copy. *)
Definition fillna_inplace (value : string) (cell : option string)
  : option string :=
  if copy_on_write then cell else fillna value cell.

(** [pd.to_datetime(col, format='mixed')]: the first string that does not
    parse raises; a missing cell becomes NaT. *)
Fixpoint to_datetime_mixed (col : list (option string))
  : result (list (option Timestamp)) :=
  match col with
  | [] => Ok []
  | None :: rest =>
      ts ← to_datetime_mixed rest;
      Ok (None :: ts)
  | Some raw :: rest =>
      match parse_mixed raw with
      | None => Raise (DateParseError raw)
      | Some t =>
          ts ← to_datetime_mixed rest;
          Ok (Some t :: ts)
      end
  end.


(** [pd.to_datetime(col, errors='coerce')]. *)
Definition to_datetime_coerce (col : list (option string))
  : list (option Timestamp) :=
  (λ cell, cell ≫= parse_coerce col) <$> col.

(** [df['Date of Journey'].astype(str) + ' ' + df[f'{col} Time']]. *)
Definition date_time_text (journey : list (option Timestamp))
    (times : list (option string)) : list (option string) :=
  zip_with (λ d t, str_add (str_add (Some (astype_str journey d)) (Some " ")) t)
    journey times.

(** The row after steps 1 to 3 of [load_data]: missing values filled (where
    the in-place [fillna] on [df['Railcard']] and on [df['Reason for Delay']]
    reaches [df]), dates and datetimes converted, features added. *)
Definition build_row (x : CsvRow) (purchase journey dep arr act : option Timestamp)
  : Row :=
  {| Date_of_Purchase := purchase;
     Date_of_Journey := journey;
     Departure_Time := csv_Departure_Time x;
     Arrival_Time := csv_Arrival_Time x;
     Actual_Arrival_Time := csv_Actual_Arrival_Time x;
     Departure_Station := csv_Departure_Station x;
     Arrival_Destination := csv_Arrival_Destination x;
     Railcard := fillna_inplace "None" (csv_Railcard x);
     Reason_for_Delay := fillna_inplace "On Time" (csv_Reason_for_Delay x);
     Ticket_Class := csv_Ticket_Class x;
     Ticket_Type := csv_Ticket_Type x;
     Purchase_Type := csv_Purchase_Type x;
     Journey_Status := csv_Journey_Status x;
     Price := csv_Price x;
     Departure_Datetime := dep;
     Arrival_Datetime := arr;
     Actual_Arrival_Datetime := act;
     Route := str_add (str_add (csv_Departure_Station x) (Some " to "))
                (csv_Arrival_Destination x);
     Departure_Hour := dt_hour dep;
     Delay_in_Mins := minutes_between act arr |}.

Fixpoint build_rows (csv : list CsvRow)
    (purchase journey dep arr act : list (option Timestamp)) : DataFrame :=
  match csv, purchase, journey, dep, arr, act with
  | x :: csv', p :: purchase', j :: journey', d :: dep', a :: arr', c :: act' =>
      build_row x p j d a c :: build_rows csv' purchase' journey' dep' arr' act'
  | _, _, _, _, _, _ => []
  end.

(** Steps 1 to 3: the table before outlier removal.  The dates are parsed
    first; [df['Departure Station'] + ' to '] then raises when that column is
    float64.  (The second [+] has an object column on its left, where pandas
    adds cell by cell and leaves a missing cell missing.) *)
Definition engineered (csv : list CsvRow) : result DataFrame :=
  purchase ← to_datetime_mixed (csv_Date_of_Purchase <$> csv);
  journey ← to_datetime_mixed (csv_Date_of_Journey <$> csv);
  let datetime col :=
    to_datetime_coerce (date_time_text journey (time_of col <$> csv)) in
  _ ← add_str (csv_Departure_Station <$> csv) " to ";
  Ok (build_rows csv purchase journey
        (datetime Departure) (datetime Arrival) (datetime Actual_Arrival)).

Definition price_bounds (df : DataFrame) : float * float :=
  let Q1 := quantile (Price <$> df) (Q2Qc (1 # 4)) in
  let Q3 := quantile (Price <$> df) (Q2Qc (3 # 4)) in
  let IQR := fsub Q3 Q1 in
  let lower_bound := fsub Q1 (fmul (Some (Q2Qc (3 # 2))) IQR) in
  let upper_bound := fadd Q3 (fmul (Some (Q2Qc (3 # 2))) IQR) in
  (lower_bound, upper_bound).

(** Step 4: outlier removal. *)
Definition remove_outliers (df : DataFrame) : DataFrame :=
  let '(lower_bound, upper_bound) := price_bounds df in
  filter (λ r, fge (Price r) lower_bound && fle (Price r) upper_bound) df.

(** [load_data]; [read_csv] is the outcome of [pd.read_csv(file_path)],
    [None] when the file is not found. *)
Definition load_data (read_csv : option (list CsvRow)) : result DataFrame :=
  match read_csv with
  | None => Raise DataSourceNotFound
  | Some csv =>
      df ← engineered csv;
      Ok (remove_outliers df)
  end.

End Loader.

(** ** A reference instance of the pandas parsers

    It covers the textual forms the source names: dates written
    [YYYY-MM-DD] or [MM/DD/YYYY], clock times written [HH:MM] or [HH:MM:SS],
    and a date followed by a clock time.  pandas accepts more.  The theorems
    about [load_data] hold for every instance; this one serves to run the
    loader on concrete tables. *)
Module Reference.

Definition digit_of (c : ascii) : option Z :=
  let n := Z.of_N (N_of_ascii c) in
  if bool_decide (48 ≤ n ≤ 57) then Some (n - 48) else None.

Fixpoint digits_from (acc : Z) (s : string) : option Z :=
  match s with
  | EmptyString => Some acc
  | String c rest => d ← digit_of c; digits_from (10 * acc + d) rest
  end.

(** A non-empty string of decimal digits. *)
Definition number (s : string) : option Z :=
  match s with
  | EmptyString => None
  | _ => digits_from 0 s
  end.

Definition is_leap (y : Z) : bool :=
  bool_decide (y mod 4 = 0) &&
  (negb (bool_decide (y mod 100 = 0)) || bool_decide (y mod 400 = 0)).

Definition days_in_month (y m : Z) : Z :=
  if bool_decide (m = 2) then (if is_leap y then 29 else 28)
  else if bool_decide (m = 4 ∨ m = 6 ∨ m = 9 ∨ m = 11) then 30
  else 31.

(** Days since 1970-01-01 of a proleptic Gregorian date. *)
Definition days_from_civil (y m d : Z) : Z :=
  let y' := if bool_decide (m ≤ 2) then y - 1 else y in
  let era := y' / 400 in
  let yoe := y' - era * 400 in
  let mp := (m + 9) mod 12 in
  let doy := (153 * mp + 2) / 5 + d - 1 in
  let doe := yoe * 365 + yoe / 4 - yoe / 100 + doy in
  era * 146097 + doe - 719468.

(** The inverse: year, month and day of a day number. *)
Definition civil_from_days (z : Z) : Z * Z * Z :=
  let z' := z + 719468 in
  let era := z' / 146097 in
  let doe := z' - era * 146097 in
  let yoe := (doe - doe / 1460 + doe / 36524 - doe / 146096) / 365 in
  let doy := doe - (365 * yoe + yoe / 4 - yoe / 100) in
  let mp := (5 * doy + 2) / 153 in
  let d := doy - (153 * mp + 2) / 5 + 1 in
  let m := if bool_decide (mp < 10) then mp + 3 else mp - 9 in
  let y := yoe + era * 400 in
  (if bool_decide (m ≤ 2) then y + 1 else y, m, d).

Definition ns_per_second : Z := 1000000000.
Definition ns_per_day : Z := 86400 * ns_per_second.

Definition civil (y m d : option Z) : option Timestamp :=
  y ← y; m ← m; d ← d;
  if bool_decide (1 ≤ m ≤ 12 ∧ 1 ≤ d ≤ days_in_month y m)
  then Some (days_from_civil y m d * ns_per_day)
  else None.

Definition sub (start len : nat) (s : string) : string :=
  String.substring start len s.

(** [YYYY-MM-DD]. *)
Definition iso_date (s : string) : option Timestamp :=
  if bool_decide (String.length s = 10%nat ∧ sub 4 1 s = "-" ∧ sub 7 1 s = "-")
  then civil (number (sub 0 4 s)) (number (sub 5 2 s)) (number (sub 8 2 s))
  else None.

(** [MM/DD/YYYY]. *)
Definition us_date (s : string) : option Timestamp :=
  if bool_decide (String.length s = 10%nat ∧ sub 2 1 s = "/" ∧ sub 5 1 s = "/")
  then civil (number (sub 6 4 s)) (number (sub 0 2 s)) (number (sub 3 2 s))
  else None.


Definition clock (h m s : option Z) : option Z :=
  h ← h; m ← m; s ← s;
  if bool_decide (0 ≤ h < 24 ∧ 0 ≤ m < 60 ∧ 0 ≤ s < 60)
  then Some ((h * 3600 + m * 60 + s) * ns_per_second)
  else None.

(** [HH:MM] or [HH:MM:SS], as nanoseconds after midnight. *)
Definition clock_time (s : string) : option Z :=
  if bool_decide (String.length s = 5%nat ∧ sub 2 1 s = ":")
  then clock (number (sub 0 2 s)) (number (sub 3 2 s)) (Some 0)
  else if bool_decide (String.length s = 8%nat ∧ sub 2 1 s = ":" ∧ sub 5 1 s = ":")
  then clock (number (sub 0 2 s)) (number (sub 3 2 s)) (number (sub 6 2 s))
  else None.

(** A date, one space, a clock time. *)
Definition iso_datetime (s : string) : option Timestamp :=
  if bool_decide (sub 10 1 s = " ")
  then d ← iso_date (sub 0 10 s);
       t ← clock_time (sub 11 (String.length s - 11) s);
       Some (d + t)
  else None.

(** [format='mixed']: each string in whichever form it has. *)
Definition parse_mixed (s : string) : option Timestamp :=
  match iso_date s, us_date s with
  | Some t, _ | None, Some t => Some t
  | None, None => iso_datetime s
  end.

(** [errors='coerce']: the texts built by [load_data] are a date, a space and
    a time. *)
Definition parse_coerce (col : list (option string)) (s : string)
  : option Timestamp :=
  iso_datetime s.

Definition digit_char (d : Z) : string :=
  String (ascii_of_N (Z.to_N (48 + d mod 10))) EmptyString.

Fixpoint zero_padded (width : nat) (n : Z) : string :=
  match width with
  | O => ""
  | S w => zero_padded w (n / 10) +:+ digit_char n
  end.

Definition date_text (t : Timestamp) : string :=
  let '(y, m, d) := civil_from_days (t / ns_per_day) in
  zero_padded 4 y +:+ "-" +:+ zero_padded 2 m +:+ "-" +:+ zero_padded 2 d.

Definition time_text (t : Timestamp) : string :=
  let s := (t mod ns_per_day) / ns_per_second in
  zero_padded 2 (s / 3600) +:+ ":" +:+ zero_padded 2 (s / 60 mod 60)
    +:+ ":" +:+ zero_padded 2 (s mod 60).

Definition at_midnight (cell : option Timestamp) : bool :=
  match cell with
  | Some t => bool_decide (t mod ns_per_day = 0)
  | None => true
  end.

(** The time part is printed only when some cell of the column has one. *)
Definition astype_str (col : list (option Timestamp)) (cell : option Timestamp)
  : string :=
  match cell with
  | None => "NaT"
  | Some t =>
      if forallb at_midnight col then date_text t
      else date_text t +:+ " " +:+ time_text t
  end.

Definition parsers : DateParsers :=
  Build_DateParsers parse_mixed astype_str parse_coerce.

(** The loader under pandas 2. *)
Definition load_data := load_data (H := parsers) (version := pandas2).

End Reference.


(** Sample tickets for running the loader: a journey from London Euston to
    York on [journey], bought on [purchase], no railcard and no delay reason
    recorded. *)
Definition ticket (purchase journey dep arr act : option string)
    (class type : option string) (pounds : Z) : CsvRow :=
  {| csv_Date_of_Purchase := purchase;
     csv_Date_of_Journey := journey;
     csv_Departure_Time := dep;
     csv_Arrival_Time := arr;
     csv_Actual_Arrival_Time := act;
     csv_Departure_Station := Some "London Euston";
     csv_Arrival_Destination := Some "York";
     csv_Railcard := None;
     csv_Reason_for_Delay := None;
     csv_Ticket_Class := class;
     csv_Ticket_Type := type;
     csv_Purchase_Type := Some "Online";
     csv_Journey_Status := Some "On Time";
     csv_Price := Some (Q2Qc (inject_Z pounds)) |}.

(** A well-formed standard advance ticket for 2024-02-01, 08:00 to 08:05,
    arrived 08:15. *)
Definition plain_ticket (pounds : Z) : CsvRow :=
  ticket (Some "01/31/2024") (Some "2024-02-01") (Some "08:00") (Some "08:05")
    (Some "08:15") (Some "Standard") (Some "Advance") pounds.

(** Five tickets priced 10, 12, 11, 13 and 1000. *)
Definition five_tickets : list CsvRow :=
  plain_ticket <$> [10; 12; 11; 13; 1000].



(** A ticket of unrecorded type whose departure time is not a clock time. *)
Definition untyped_ticket : CsvRow :=
  ticket (Some "01/31/2024") (Some "2024-02-01") (Some "eight") (Some "08:05")
    (Some "08:15") (Some "Standard") None 5.

(** Three first-class and seven standard tickets at the same price. *)
Definition ten_tickets : list CsvRow :=
  (λ class, ticket (Some "01/31/2024") (Some "2024-02-01") (Some "08:00")
              (Some "08:05") (Some "08:15") (Some class) (Some "Advance") 10)
  <$> ["Standard"; "First"; "Standard"; "Standard"; "First"; "Standard";
       "Standard"; "First"; "Standard"; "Standard"].

(** A journey from [origin] to York with the given class, status and reason
    for delay, at 10 pounds; the other cells as in [plain_ticket]. *)
Definition journey (origin class status reason : option string) : CsvRow :=
  {| csv_Date_of_Purchase := Some "01/31/2024";
     csv_Date_of_Journey := Some "2024-02-01";
     csv_Departure_Time := Some "08:00";
     csv_Arrival_Time := Some "08:05";
     csv_Actual_Arrival_Time := Some "08:15";
     csv_Departure_Station := origin;
     csv_Arrival_Destination := Some "York";
     csv_Railcard := None;
     csv_Reason_for_Delay := reason;
     csv_Ticket_Class := class;
     csv_Ticket_Type := Some "Advance";
     csv_Purchase_Type := Some "Online";
     csv_Journey_Status := status;
     csv_Price := Some (Q2Qc (inject_Z 10)) |}.

(** Two tickets: one bought with an Adult railcard and delayed by a signal
    failure, one with no railcard and no reason for delay recorded. *)
Definition two_railcards : list CsvRow :=
  [ {| csv_Date_of_Purchase := Some "01/31/2024";
       csv_Date_of_Journey := Some "2024-02-01";
       csv_Departure_Time := Some "08:00";
       csv_Arrival_Time := Some "08:05";
       csv_Actual_Arrival_Time := Some "08:15";
       csv_Departure_Station := Some "London Euston";
       csv_Arrival_Destination := Some "York";
       csv_Railcard := Some "Adult";
       csv_Reason_for_Delay := Some "Signal Failure";
       csv_Ticket_Class := Some "Standard";
       csv_Ticket_Type := Some "Advance";
       csv_Purchase_Type := Some "Online";
       csv_Journey_Status := Some "Delayed";
       csv_Price := Some (Q2Qc (inject_Z 10)) |};
    journey (Some "Oxford") (Some "Standard") (Some "On Time") None ].


(** Four journeys: two delayed by signal failure, one delayed for an
    unrecorded reason from an unrecorded station, one on time. *)
Definition four_journeys : list CsvRow :=
  [ journey (Some "London Euston") (Some "Standard") (Some "Delayed")
      (Some "Signal Failure");
    journey None (Some "First") (Some "Delayed") None;
    journey (Some "Oxford") (Some "Standard") (Some "On Time") None;
    journey (Some "London Euston") (Some "First") (Some "Delayed")
      (Some "Signal Failure") ].

(** Two journeys: a delayed first-class journey from an unrecorded station
    with no reason recorded, and a standard journey from Oxford on time. *)
Definition two_classes : list CsvRow :=
  [ journey None (Some "First") (Some "Delayed") None;
    journey (Some "Oxford") (Some "Standard") (Some "On Time") None ].

(** The table that the reference loader returns, empty if it raises. *)
Definition loaded (csv : list CsvRow) : DataFrame :=
  match Reference.load_data (Some csv) with
  | Ok df => df
  | Raise _ => []
  end.

(** The same with Copy-on-Write in force. *)
Definition loaded_copy_on_write (csv : list CsvRow) : DataFrame :=
  match load_data (H := Reference.parsers) (version := copy_on_write_mode)
          (Some csv) with
  | Ok df => df
  | Raise _ => []
  end.

(** ** Filters *)

(** [df[df[col] == value]]: a missing cell equals no value. *)
Definition select_eq (col : Row → option string) (value : string)
    (df : DataFrame) : DataFrame :=
  filter (λ r, col r = Some value) df.

(** What the four select boxes of [create_interactive_filters] return. *)
Record Selection := {
  class_filter : string;
  type_filter : string;
  purchase_filter : string;
  status_filter : string
}.

(** [create_interactive_filters]: the select boxes have returned [chosen];
    the status box is not shown when 'status' is in [exclude_filters]. *)
Definition create_interactive_filters (df : DataFrame) (chosen : Selection)
    (exclude_filters : list string) : DataFrame :=
  let status_filter :=
    if decide ("status" ∉ exclude_filters) then status_filter chosen else "None" in
  let filtered_df := df in
  let filtered_df :=
    if decide (class_filter chosen ≠ "None")
    then select_eq Ticket_Class (class_filter chosen) filtered_df
    else filtered_df in
  let filtered_df :=
    if decide (type_filter chosen ≠ "None")
    then select_eq Ticket_Type (type_filter chosen) filtered_df
    else filtered_df in
  let filtered_df :=
    if decide (purchase_filter chosen ≠ "None")
    then select_eq Purchase_Type (purchase_filter chosen) filtered_df
    else filtered_df in
  let filtered_df :=
    if decide (status_filter ≠ "None")
    then select_eq Journey_Status status_filter filtered_df
    else filtered_df in
  filtered_df.

(** A selection with one box set and the others left at 'None'. *)
Definition only_class (v : string) : Selection :=
  {| class_filter := v; type_filter := "None";
     purchase_filter := "None"; status_filter := "None" |}.

Definition only_type (v : string) : Selection :=
  {| class_filter := "None"; type_filter := v;
     purchase_filter := "None"; status_filter := "None" |}.

Definition only_purchase (v : string) : Selection :=
  {| class_filter := "None"; type_filter := "None";
     purchase_filter := v; status_filter := "None" |}.

Definition only_status (v : string) : Selection :=
  {| class_filter := "None"; type_filter := "None";
     purchase_filter := "None"; status_filter := v |}.

(** The KPI filters of the first tab: three select boxes, sentinel 'All'. *)
Definition df_kpi_selection (df : DataFrame) (kpi_class kpi_type kpi_status : string)
  : DataFrame :=
  let df_kpi_selection := df in
  let df_kpi_selection :=
    if decide (kpi_class ≠ "All")
    then select_eq Ticket_Class kpi_class df_kpi_selection
    else df_kpi_selection in
  let df_kpi_selection :=
    if decide (kpi_type ≠ "All")
    then select_eq Ticket_Type kpi_type df_kpi_selection
    else df_kpi_selection in
  let df_kpi_selection :=
    if decide (kpi_status ≠ "All")
    then select_eq Journey_Status kpi_status df_kpi_selection
    else df_kpi_selection in
  df_kpi_selection.

(** ** Counting and grouping *)

(** A stable insertion sort: [before x y] tells that [x] may stay in front of
    [y]; elements that may stay in front of each other keep their order. *)
Section StableSort.

Context {A : Type} (before : A → A → bool).

Fixpoint insert_sorted (x : A) (l : list A) : list A :=
  match l with
  | [] => [x]
  | y :: l' => if before x y then x :: y :: l' else y :: insert_sorted x l'
  end.

Definition stable_sort (l : list A) : list A := foldr insert_sorted [] l.

End StableSort.

(** [Series.sort_values] with its default [kind='quicksort'].  The entries
    come back in sorted order; numpy's quicksort is not stable, so entries
    that compare equal come back in an order that depends on the installed
    numpy.  The sort is a parameter of which no more is known than that.
    [before x y] tells that [x] may stand in front of [y]. *)
Class Sorting := {
  sort_values : ∀ {A : Type}, (A → A → bool) → list A → list A;
  sort_values_Permutation {A : Type} (before : A → A → bool) (l : list A) :
    sort_values before l ≡ₚ l;
  sort_values_Sorted {A : Type} (before : A → A → bool) (l : list A) :
    (∀ x y, before x y = false → before y x = true) →
    (∀ x y z, before x y = true → before y z = true → before x z = true) →
    StronglySorted (λ x y, before x y = true) (sort_values before l)
}.

Section Grouping.

Context {K : Type} `{EqDecision K} {sorting : Sorting}.

(** One step of a hash-table aggregation: the entry of [k] is updated in
    place, a new key goes to the end. *)
Fixpoint upsert {V} (update : V → V) (init : V) (k : K) (acc : list (K * V))
  : list (K * V) :=
  match acc with
  | [] => [(k, init)]
  | (k', v) :: rest =>
      if decide (k = k') then (k', update v) :: rest
      else (k', v) :: upsert update init k rest
  end.

(** The distinct non-missing values of a column with their number of
    occurrences, in order of first occurrence. *)
Definition tally (col : list (option K)) : list (K * nat) :=
  foldl (λ acc cell,
           match cell with
           | Some k => upsert S 1%nat k acc
           | None => acc
           end) [] col.

(** [Series.value_counts()]: missing cells dropped, counts in descending
    order.  pandas counts with a hash table that keeps the values in order of
    first occurrence, then calls [sort_values(ascending=False)]. *)
Definition value_counts (col : list (option K)) : list (K * nat) :=
  sort_values (λ x y, (y.2 <=? x.2)%nat) (tally col).

(** [Series.nlargest(n)] on a series of counts ([keep='first']).  When the
    series has no more than [n] entries pandas returns
    [sort_values(ascending=False).head(n)]; otherwise it selects the [n]
    largest and orders them with a stable merge sort, equal counts in their
    order in the series. *)
Definition nlargest (n : nat) (s : list (K * nat)) : list (K * nat) :=
  if decide (length s ≤ n)%nat
  then take n (sort_values (λ x y, (y.2 <=? x.2)%nat) s)
  else take n (stable_sort (λ x y, (y.2 <=? x.2)%nat) s).

(** [subset[column].value_counts().nlargest(n)], as at [top_10_routes]. *)
Definition top_n_by_count {R} (subset : list R) (column : R → option K) (n : nat)
  : list (K * nat) :=
  nlargest n (value_counts (column <$> subset)).

(** The groups of [df.groupby(key)[value].sum()] before the index is sorted:
    rows with a missing key are dropped, a NaN value adds nothing. *)
Definition group_sums {R} (key : R → option K) (value : R → float) (df : list R)
  : list (K * Qc) :=
  foldl (λ acc r,
           match key r with
           | Some k =>
               let v := default 0%Qc (value r) in
               upsert (λ s, (s + v)%Qc) v k acc
           | None => acc
           end) [] df.

(** The number of cells of [col] holding [k]. *)
Definition count_of (k : K) (col : list (option K)) : nat :=
  length (filter (λ cell, cell = Some k) col).

(** The value stored for [k] in a series. *)
Fixpoint assoc {V} (k : K) (s : list (K * V)) : option V :=
  match s with
  | [] => None
  | (k', v) :: rest => if decide (k = k') then Some v else assoc k rest
  end.

(** Position of the first cell of [col] holding [k] ([length col] if none). *)
Fixpoint first_index (k : K) (col : list (option K)) : nat :=
  match col with
  | [] => 0
  | cell :: rest => if decide (cell = Some k) then 0 else S (first_index k rest)
  end.

End Grouping.

(** [df.groupby(key)[value].sum()]: the groups in ascending key order. *)
Definition groupby_sum {R} (key : R → option string) (value : R → float)
    (df : list R) : list (string * Qc) :=
  stable_sort (λ x y, String.leb x.1 y.1) (group_sums key value df).

(** [df.groupby('Ticket Type')['Price'].sum().sort_values(ascending=False)]. *)
Definition revenue_by_type {sorting : Sorting} (df : DataFrame)
  : list (string * Qc) :=
  sort_values (λ x y, bool_decide (y.2 ≤ x.2)%Qc) (groupby_sum Ticket_Type Price df).

(** [df.groupby('Ticket Class')['Price'].sum()]. *)
Definition revenue_by_class (df : DataFrame) : list (string * Qc) :=
  groupby_sum Ticket_Class Price df.

(** [Series.sum()]: NaN skipped. *)
Definition total (xs : list Qc) : Qc := foldr Qcplus 0%Qc xs.

Definition col_sum (col : list float) : Qc := total (default 0%Qc <$> col).

(** ** The series behind the charts *)

(** [Series.isin(values)]: a missing cell is in no index of values. *)
Definition isin (values : list string) (cell : option string) : Prop :=
  match cell with
  | Some v => v ∈ values
  | None => False
  end.

Global Instance isin_dec values cell : Decision (isin values cell).
Proof. destruct cell; simpl; apply _. Defined.

(** What a chart block of a tab comes to. *)
Inductive block (A : Type) :=
  | Insight (a : A)  (* the chart is drawn and the insight names [a] *)
  | NoData           (* the guard found the table empty: a notice is shown *)
  | IndexError       (* [index[0]] on an empty index raises *).
Arguments Insight {A} a.
Arguments NoData {A}.
Arguments IndexError {A}.

Section Series.

Context {sorting : Sorting}.

(** [filtered_df_route['Route'].value_counts().nlargest(10).index]. *)
Definition top_10_routes (filtered_df_route : DataFrame) : list string :=
  (top_n_by_count filtered_df_route Route 10).*1.

(** [df['Departure Hour'].value_counts().sort_index()]: the hours are
    distinct, so the order of the result does not depend on the sort. *)
Definition journeys_by_hour (df : DataFrame) : list (Z * nat) :=
  stable_sort (λ x y, bool_decide (x.1 ≤ y.1)) (value_counts (Departure_Hour <$> df)).



Definition railcard_counts (df : DataFrame) : list (string * nat) :=
  value_counts (Railcard <$> df).

(** [filtered_df_delays[filtered_df_delays['Journey Status'] == 'Delayed']]. *)
Definition delayed_journeys (filtered_df_delays : DataFrame) : DataFrame :=
  select_eq Journey_Status "Delayed" filtered_df_delays.

(** [delayed_journeys['Reason for Delay'].value_counts().index]. *)
Definition top_delay_reasons (delayed_journeys : DataFrame) : list string :=
  (value_counts (Reason_for_Delay <$> delayed_journeys)).*1.

(** [filtered_df_route[filtered_df_route['Route'].isin(top_10_routes)]]. *)
Definition plot_df_routes (filtered_df_route : DataFrame) : DataFrame :=
  filter (λ r, isin (top_10_routes filtered_df_route) (Route r)) filtered_df_route.

(** The block of the popular routes: [top_route_name = top_10_routes[0]],
    unless [filtered_df_route.empty]. *)
Definition top_route_name (filtered_df_route : DataFrame) : block string :=
  match filtered_df_route with
  | [] => NoData
  | _ :: _ =>
      match top_10_routes filtered_df_route with
      | [] => IndexError
      | name :: _ => Insight name
      end
  end.

(** The block of the delay reasons: [top_delay_reason = top_delay_reasons[0]],
    unless [delayed_journeys.empty]. *)
Definition top_delay_reason (filtered_df_delays : DataFrame) : block string :=
  match delayed_journeys filtered_df_delays with
  | [] => NoData
  | _ :: _ =>
      match top_delay_reasons (delayed_journeys filtered_df_delays) with
      | [] => IndexError
      | reason :: _ => Insight reason
      end
  end.

End Series.

(** [Series.unique()]: the distinct cells in order of first occurrence, a
    missing cell among them. *)
Definition unique (col : list (option string)) : list (option string) :=
  foldl (λ acc cell, if decide (cell ∈ acc) then acc else (acc ++ [cell])%list)
    [] col.

(** The options of a select box: [[sentinel] + list(df[col].unique())]. *)
Definition options (sentinel : string) (col : list (option string))
  : list (option string) :=
  Some sentinel :: unique col.

(** ** Filtering in the words of the specification *)

(** A criteria record: each field is unset or holds one exact value. *)
Record Criteria := {
  ticketClass : option string;
  ticketType : option string;
  purchaseType : option string;
  journeyStatus : option string
}.

(** A cell matches a criterion: any cell when it is unset, else exactly the
    criterion's value. *)
Definition matches (criterion cell : option string) : Prop :=
  match criterion with
  | Some value => cell = Some value
  | None => True
  end.

Global Instance matches_dec criterion cell : Decision (matches criterion cell).
Proof. destruct criterion; simpl; apply _. Defined.

(** All set criteria hold of the row. *)
Definition satisfies (c : Criteria) (r : Row) : Prop :=
  matches (ticketClass c) (Ticket_Class r)
  ∧ matches (ticketType c) (Ticket_Type r)
  ∧ matches (purchaseType c) (Purchase_Type r)
  ∧ matches (journeyStatus c) (Journey_Status r).

Global Instance satisfies_dec c r : Decision (satisfies c r).
Proof. unfold satisfies. apply _. Defined.

Definition applyFilters (table : DataFrame) (criteria : Criteria) : DataFrame :=
  filter (satisfies criteria) table.

(** What a select box returned, as a criterion: the sentinel is "unset". *)
Definition criterion (sentinel chosen : string) : option string :=
  if decide (chosen ≠ sentinel) then Some chosen else None.

(** The criteria that [create_interactive_filters] applies. *)
Definition criteria_of (chosen : Selection) (exclude_filters : list string)
  : Criteria :=
  {| ticketClass := criterion "None" (class_filter chosen);
     ticketType := criterion "None" (type_filter chosen);
     purchaseType := criterion "None" (purchase_filter chosen);
     journeyStatus :=
       if decide ("status" ∉ exclude_filters)
       then criterion "None" (status_filter chosen) else None |}.

(** The criteria that the KPI filters apply. *)
Definition kpi_criteria (kpi_class kpi_type kpi_status : string) : Criteria :=
  {| ticketClass := criterion "All" kpi_class;
     ticketType := criterion "All" kpi_type;
     purchaseType := None;
     journeyStatus := criterion "All" kpi_status |}.

(** Two criteria records constrain different columns. *)
Definition distinct_columns (a b : Criteria) : Prop :=
  (ticketClass a = None ∨ ticketClass b = None)
  ∧ (ticketType a = None ∨ ticketType b = None)
  ∧ (purchaseType a = None ∨ purchaseType b = None)
  ∧ (journeyStatus a = None ∨ journeyStatus b = None).

(** The criteria {A, B}: every constraint of either record. *)
Definition both (a b : Criteria) : Criteria :=
  {| ticketClass := from_option Some (ticketClass b) (ticketClass a);
     ticketType := from_option Some (ticketType b) (ticketType a);
     purchaseType := from_option Some (purchaseType b) (purchaseType a);
     journeyStatus := from_option Some (journeyStatus b) (journeyStatus a) |}.

(** ** The outlier band in the words of the specification *)

(** [Q1 - 1.5 IQR] and [Q3 + 1.5 IQR] of a price column; none when the column
    has no price. *)
Definition iqr_bounds (prices : list float) : option (Qc * Qc) :=
  Q1 ← quantile prices (Q2Qc (1 # 4));
  Q3 ← quantile prices (Q2Qc (3 # 4));
  let IQR := (Q3 - Q1)%Qc in
  Some (Q1 - Q2Qc (3 # 2) * IQR, Q3 + Q2Qc (3 # 2) * IQR)%Qc.

(** The price [p] lies within the band of the column [prices]. *)
Definition within_band (prices : list float) (p : float) : Prop :=
  match iqr_bounds prices, p with
  | Some (lower, upper), Some x => (lower ≤ x)%Qc ∧ (x ≤ upper)%Qc
  | _, _ => False
  end.

Global Instance within_band_dec prices p : Decision (within_band prices p).
Proof.
  unfold within_band. destruct (iqr_bounds prices) as [[lower upper]|], p; apply _.
Defined.

(** A price column without missing cells, from whole numbers. *)
Definition price_column (pounds : list Z) : list float :=
  (λ z, Some (Q2Qc (inject_Z z))) <$> pounds.

(** The row [r] holds the cells of the input row [x] that the loader does not
    write: price, stations, class, type, purchase type, status and the three
    time texts. *)
Definition same_cells (x : CsvRow) (r : Row) : Prop :=
  Price r = csv_Price x
  ∧ Departure_Station r = csv_Departure_Station x
  ∧ Arrival_Destination r = csv_Arrival_Destination x
  ∧ Ticket_Class r = csv_Ticket_Class x
  ∧ Ticket_Type r = csv_Ticket_Type x
  ∧ Purchase_Type r = csv_Purchase_Type x
  ∧ Journey_Status r = csv_Journey_Status x
  ∧ Departure_Time r = csv_Departure_Time x
  ∧ Arrival_Time r = csv_Arrival_Time x
  ∧ Actual_Arrival_Time r = csv_Actual_Arrival_Time x.

(** * Properties *)

(** ** The loader *)

Section LoaderFacts.

Context `{DateParsers} {version : Pandas}.

Lemma to_datetime_mixed_lookup col ts :
  to_datetime_mixed col = Ok ts →
  ts = (λ cell, cell ≫= parse_mixed) <$> col.
Proof.
  revert ts. induction col as [|[raw|] col IH]; intros ts; simpl.
  - by intros [= <-].
  - destruct (parse_mixed raw) as [t|] eqn:Hraw; [|done].
    destruct (to_datetime_mixed col) as [ts'|] eqn:Hrest; simpl; [|done].
    intros [= <-]. by rewrite (IH _ eq_refl).
  - destruct (to_datetime_mixed col) as [ts'|] eqn:Hrest; simpl; [|done].
    intros [= <-]. by rewrite (IH _ eq_refl).
Qed.






Lemma add_str_raise col s e :
  add_str col s = Raise e ↔ e = UFuncTypeError ∧ float64_dtype col = true.
Proof.
  unfold add_str. destruct (float64_dtype col); split;
    [intros [= <-]; done|by intros [-> _]|done|by intros [_ ?]].
Qed.

Lemma build_rows_length csv p j d a c :
  length p = length csv → length j = length csv → length d = length csv →
  length a = length csv → length c = length csv →
  length (build_rows csv p j d a c) = length csv.
Proof.
  revert p j d a c.
  induction csv as [|x csv IH]; intros [|? p] [|? j] [|? d] [|? a] [|? c];
    simpl; try done.
  intros. f_equal. apply IH; lia.
Qed.

Lemma build_rows_lookup csv p j d a c i x :
  length p = length csv → length j = length csv → length d = length csv →
  length a = length csv → length c = length csv →
  csv !! i = Some x →
  ∃ pi ji di ai ci,
    p !! i = Some pi ∧ j !! i = Some ji ∧ d !! i = Some di
    ∧ a !! i = Some ai ∧ c !! i = Some ci
    ∧ build_rows csv p j d a c !! i = Some (build_row x pi ji di ai ci).
Proof.
  revert p j d a c i.
  induction csv as [|y csv IH]; intros [|p0 p] [|j0 j] [|d0 d] [|a0 a] [|c0 c] i;
    simpl; try done.
  intros ????? Hi. destruct i as [|i]; simpl in *.
  - injection Hi as ->. by eexists _, _, _, _, _.
  - apply IH; [lia..|done].
Qed.

(** The rows of the table before outlier removal, cell by cell. *)
Lemma engineered_rows csv df :
  engineered csv = Ok df →
  let journey := (λ x, csv_Date_of_Journey x ≫= parse_mixed) <$> csv in
  let text col := date_time_text journey (time_of col <$> csv) in
  let cell col x :=
    str_add (str_add (Some (astype_str journey (csv_Date_of_Journey x ≫= parse_mixed)))
               (Some " ")) (time_of col x) in
  length df = length csv ∧
  ∀ i x, csv !! i = Some x →
    (∀ col, text col !! i = Some (cell col x)) ∧
    df !! i = Some (build_row x
                      (csv_Date_of_Purchase x ≫= parse_mixed)
                      (csv_Date_of_Journey x ≫= parse_mixed)
                      (cell Departure x ≫= parse_coerce (text Departure))
                      (cell Arrival x ≫= parse_coerce (text Arrival))
                      (cell Actual_Arrival x ≫= parse_coerce (text Actual_Arrival))).
Proof.
  unfold engineered.
  destruct (to_datetime_mixed (csv_Date_of_Purchase <$> csv))
    as [purchase|] eqn:Hp; simpl; [|done].
  destruct (to_datetime_mixed (csv_Date_of_Journey <$> csv))
    as [journey|] eqn:Hj; simpl; [|done].
  destruct (add_str (csv_Departure_Station <$> csv) " to ")
    as [departure_to|] eqn:Hadd; simpl; [|done].
  intros [= <-].
  apply to_datetime_mixed_lookup in Hp as ->, Hj as ->.
  rewrite <- !list_fmap_compose.
  set (journey := (λ x, csv_Date_of_Journey x ≫= parse_mixed) <$> csv).
  change ((λ cell, cell ≫= parse_mixed) ∘ csv_Date_of_Journey <$> csv) with journey.
  assert (Hlen : ∀ col,
    length (to_datetime_coerce (date_time_text journey (time_of col <$> csv)))
    = length csv).
  { intros col. unfold to_datetime_coerce, date_time_text.
    rewrite length_fmap, length_zip_with. unfold journey.
    rewrite !length_fmap. lia. }
  assert (Htext : ∀ col i x, csv !! i = Some x →
    date_time_text journey (time_of col <$> csv) !! i
    = Some (str_add (str_add (Some (astype_str journey
                                      (csv_Date_of_Journey x ≫= parse_mixed)))
                       (Some " ")) (time_of col x))).
  { intros col i x Hi. unfold date_time_text.
    rewrite lookup_zip_with. unfold journey at 2.
    by rewrite !list_lookup_fmap, Hi. }
  split.
  - apply build_rows_length;
      [by rewrite length_fmap|by unfold journey; rewrite length_fmap
      |apply (Hlen Departure)|apply (Hlen Arrival)|apply (Hlen Actual_Arrival)].
  - intros i x Hi. split; [intros col; by apply Htext|].
    destruct (build_rows_lookup csv
      ((λ cell, cell ≫= parse_mixed) ∘ csv_Date_of_Purchase <$> csv) journey
      (to_datetime_coerce (date_time_text journey (time_of Departure <$> csv)))
      (to_datetime_coerce (date_time_text journey (time_of Arrival <$> csv)))
      (to_datetime_coerce (date_time_text journey (time_of Actual_Arrival <$> csv)))
      i x) as (pi & ji & di & ai & ci & Hpi & Hji & Hdi & Hai & Hci & Hrow);
      [by rewrite length_fmap|by unfold journey; rewrite length_fmap
      |apply (Hlen Departure)|apply (Hlen Arrival)|apply (Hlen Actual_Arrival)
      |done|].
    unfold journey in Hji. rewrite list_lookup_fmap, Hi in Hpi, Hji.
    simpl in Hpi, Hji. injection Hpi as <-. injection Hji as <-.
    unfold to_datetime_coerce in Hdi, Hai, Hci.
    rewrite list_lookup_fmap, (Htext _ _ _ Hi) in Hdi.
    rewrite list_lookup_fmap, (Htext _ _ _ Hi) in Hai.
    rewrite list_lookup_fmap, (Htext _ _ _ Hi) in Hci.
    simpl in Hdi, Hai, Hci.
    injection Hdi as <-; injection Hai as <-; injection Hci as <-. exact Hrow.
Qed.

Lemma load_data_inv csv cleaned :
  load_data (Some csv) = Ok cleaned →
  ∃ df, engineered csv = Ok df ∧ cleaned = remove_outliers df.
Proof.
  unfold load_data.
  destruct (engineered csv) as [df|] eqn:Hdf; simpl; [|done].
  intros [= <-]. eauto.
Qed.

End LoaderFacts.

Lemma Forall2_filter_r {A B} (R : A → B → Prop) (P : B → Prop)
    `{!∀ y, Decision (P y)} (l : list A) (k : list B) :
  Forall2 R l k → ∃ l', l' `sublist_of` l ∧ Forall2 R l' (filter P k).
Proof.
  induction 1 as [|x y l k Hxy _ (l' & Hsub & Hrel)].
  - exists []. by split.
  - destruct (decide (P y)) as [Hy|Hy].
    + rewrite filter_cons_True by done. exists (x :: l').
      split; by constructor.
    + rewrite filter_cons_False by done. exists l'.
      split; [by constructor|done].
Qed.

Section LoaderClaims.

Context `{DateParsers} {version : Pandas}.

Lemma outlier_mask_within_band (df : DataFrame) (r : Row) :
  fge (Price r) (price_bounds df).1 && fle (Price r) (price_bounds df).2
  ↔ within_band (Price <$> df) (Price r).
Proof.
  unfold within_band, iqr_bounds, price_bounds; simpl.
  destruct (quantile (Price <$> df) (Q2Qc (1 # 4))) as [Q1|]; simpl;
    [|by destruct (Price r), (quantile _ _)].
  destruct (quantile (Price <$> df) (Q2Qc (3 # 4))) as [Q3|]; simpl;
    [|by destruct (Price r)].
  destruct (Price r) as [x|]; simpl; [|done].
  rewrite andb_True, !bool_decide_spec. done.
Qed.

Lemma remove_outliers_within_band (df : DataFrame) :
  remove_outliers df = filter (λ r, within_band (Price <$> df) (Price r)) df.
Proof.
  unfold remove_outliers.
  destruct (price_bounds df) as [lower_bound upper_bound] eqn:Hbounds.
  apply list_filter_iff. intros r.
  rewrite <- outlier_mask_within_band. by rewrite Hbounds.
Qed.

Lemma remove_outliers_sublist (df : DataFrame) : remove_outliers df `sublist_of` df.
Proof.
  unfold remove_outliers. destruct (price_bounds df). apply sublist_filter.
Qed.

Lemma engineered_row_of csv df r :
  engineered csv = Ok df → r ∈ df →
  ∃ x p j d a c, x ∈ csv ∧ r = build_row x p j d a c.
Proof.
  intros [Hlen Hrows]%engineered_rows [i Hi]%list_elem_of_lookup.
  destruct (lookup_lt_is_Some_2 csv i) as [x Hx];
    [rewrite <- Hlen; by eapply lookup_lt_Some|].
  destruct (Hrows i x Hx) as [_ Hr]. rewrite Hi in Hr. injection Hr as ->.
  eexists x, _, _, _, _, _. split; [by eapply list_elem_of_lookup_2|done].
Qed.

Lemma loaded_row_of csv cleaned r :
  load_data (Some csv) = Ok cleaned → r ∈ cleaned →
  ∃ x p j d a c, x ∈ csv ∧ r = build_row x p j d a c.
Proof.
  intros (df & Hdf & ->)%load_data_inv Hr.
  eapply engineered_row_of; [done|].
  eapply sublist_subseteq; [apply remove_outliers_sublist|done].
Qed.

(** The rows that [load_data] returns stand, in order, for a subsequence of
    the input rows, each built from its input row. *)
Lemma loaded_rows_in_order csv cleaned :
  load_data (Some csv) = Ok cleaned →
  ∃ kept, kept `sublist_of` csv
    ∧ Forall2 (λ x r, ∃ p j d a c, r = build_row x p j d a c) kept cleaned.
Proof.
  intros (df & Hdf & ->)%load_data_inv.
  destruct (engineered_rows _ _ Hdf) as [Hlen Hrows].
  rewrite remove_outliers_within_band. apply Forall2_filter_r.
  apply Forall2_same_length_lookup_2; [done|].
  intros i x r Hx Hr. destruct (Hrows i x Hx) as [_ Hr'].
  rewrite Hr in Hr'. injection Hr' as ->. by eexists _, _, _, _, _.
Qed.

(** Where the in-place [fillna] reaches the table, no row that [load_data]
    returns lacks a railcard or a reason for delay. *)
Lemma loaded_rows_filled csv cleaned r :
  copy_on_write = false →
  load_data (Some csv) = Ok cleaned → r ∈ cleaned →
  is_Some (Railcard r) ∧ is_Some (Reason_for_Delay r).
Proof.
  intros Hversion Hload (x & p & j & d & a & c & _ & ->)%(loaded_row_of _ _ _ Hload).
  simpl. unfold fillna_inplace. rewrite Hversion.
  by destruct (csv_Railcard x), (csv_Reason_for_Delay x).
Qed.

(** C2.  The two [fillna] calls are made in place on [df['Railcard']] and
    [df['Reason for Delay']], and nothing is assigned back.  Where that
    reaches the table (pandas 2 as installed), no returned row lacks a
    railcard or a reason for delay: a missing Railcard has become "None", a
    missing Reason for Delay "On Time", a value that was present is kept.
    Under Copy-on-Write the calls fill a temporary column, and every returned
    row holds the two cells as they were read, blanks included: of two
    tickets, one with an Adult railcard delayed by a signal failure and one
    with both cells blank, the second comes back with both cells missing. *)
Theorem fillna_is_lost_under_copy_on_write (csv : list CsvRow) :
  (copy_on_write = false →
   ∀ cleaned, load_data (Some csv) = Ok cleaned →
     (∀ r, r ∈ cleaned → is_Some (Railcard r) ∧ is_Some (Reason_for_Delay r))
     ∧ ∃ kept, kept `sublist_of` csv
         ∧ Forall2 (λ x r,
             Railcard r = Some (default "None" (csv_Railcard x))
             ∧ Reason_for_Delay r
               = Some (default "On Time" (csv_Reason_for_Delay x))) kept cleaned)
  ∧ (copy_on_write = true →
     ∀ cleaned, load_data (Some csv) = Ok cleaned →
       ∃ kept, kept `sublist_of` csv
         ∧ Forall2 (λ x r,
             Railcard r = csv_Railcard x
             ∧ Reason_for_Delay r = csv_Reason_for_Delay x) kept cleaned)
  ∧ (∃ cleaned,
       load_data (H := Reference.parsers) (version := copy_on_write_mode)
         (Some two_railcards) = Ok cleaned
       ∧ Railcard <$> cleaned = [Some "Adult"; None]
       ∧ Reason_for_Delay <$> cleaned = [Some "Signal Failure"; None])
  ∧ (∃ cleaned,
       load_data (H := Reference.parsers) (version := pandas2)
         (Some two_railcards) = Ok cleaned
       ∧ Railcard <$> cleaned = [Some "Adult"; Some "None"]
       ∧ Reason_for_Delay <$> cleaned = [Some "Signal Failure"; Some "On Time"]).
Proof.
  split_and!.
  - intros Hversion cleaned Hload. split.
    + intros r Hr. by eapply loaded_rows_filled.
    + destruct (loaded_rows_in_order _ _ Hload) as (kept & Hsub & Hrows).
      exists kept. split; [done|].
      eapply Forall2_impl; [exact Hrows|].
      intros x r (p & j & d & a & c & ->). simpl.
      unfold fillna_inplace. rewrite Hversion.
      by destruct (csv_Railcard x), (csv_Reason_for_Delay x).
  - intros Hversion cleaned Hload.
    destruct (loaded_rows_in_order _ _ Hload) as (kept & Hsub & Hrows).
    exists kept. split; [done|].
    eapply Forall2_impl; [exact Hrows|].
    intros x r (p & j & d & a & c & ->). simpl.
    unfold fillna_inplace. by rewrite Hversion.
  - eexists. split; [by vm_compute|]. split; by vm_compute.
  - eexists. split; [by vm_compute|]. split; by vm_compute.
Qed.

(** C7. Every row that [load_data] returns holds the two stations of its
    input row, and its Route is the departure station, then " to ", then the
    arrival destination, as [+] on columns joins them: defined whenever both
    stations are, missing when a station is missing.  Nothing else sets
    it. *)
Theorem route_is_concatenation (csv : list CsvRow) (cleaned : DataFrame) :
  load_data (Some csv) = Ok cleaned →
  (∀ r, r ∈ cleaned →
     Route r = (departure ← Departure_Station r;
                arrival ← Arrival_Destination r;
                Some ((departure +:+ " to ") +:+ arrival)))
  ∧ ∃ kept, kept `sublist_of` csv
      ∧ Forall2 (λ x r,
          Departure_Station r = csv_Departure_Station x
          ∧ Arrival_Destination r = csv_Arrival_Destination x
          ∧ Route r = (departure ← csv_Departure_Station x;
                       arrival ← csv_Arrival_Destination x;
                       Some ((departure +:+ " to ") +:+ arrival))) kept cleaned.
Proof.
  intros Hload. split.
  - intros r (x & p & j & d & a & c & _ & ->)%(loaded_row_of _ _ _ Hload).
    simpl. by destruct (csv_Departure_Station x), (csv_Arrival_Destination x).
  - destruct (loaded_rows_in_order _ _ Hload) as (kept & Hsub & Hrows).
    exists kept. split; [done|].
    eapply Forall2_impl; [exact Hrows|].
    intros x r (p & j & d & a & c & ->). simpl.
    by destruct (csv_Departure_Station x), (csv_Arrival_Destination x).
Qed.








End LoaderClaims.

(** ** Lists *)

Section ListFacts.

Context {A : Type} (P : A → Prop) `{!∀ x, Decision (P x)}.

Lemma filter_all (l : list A) : (∀ x, x ∈ l → P x) → filter P l = l.
Proof.
  induction l as [|x l IH]; intros Hall; [done|].
  rewrite filter_cons_True by (apply Hall; by left).
  f_equal. apply IH. intros y Hy. apply Hall. by right.
Qed.

Lemma filter_none (l : list A) : filter P l = [] ↔ ∀ x, x ∈ l → ¬ P x.
Proof.
  split.
  - intros Hnil x Hx HP. by eapply filter_nil_not_elem_of.
  - induction l as [|x l IH]; intros Hnone; [done|].
    rewrite filter_cons_False by (apply Hnone; by left).
    apply IH. intros y Hy. apply Hnone. by right.
Qed.

End ListFacts.

Section SortedFacts.

Context {A : Type}.

Lemma StronglySorted_ext_in (R R' : relation A) (l : list A) :
  (∀ a b, a ∈ l → b ∈ l → R a b → R' a b) →
  StronglySorted R l → StronglySorted R' l.
Proof.
  induction l as [|x l IH]; intros Himpl; [constructor|].
  intros [Hx Hl]%StronglySorted_cons. apply StronglySorted_cons. split.
  - rewrite Forall_forall in Hx |- *. intros y Hy.
    apply Himpl; [by left|by right|by apply Hx].
  - apply IH; [|done]. intros a b Ha Hb. apply Himpl; by right.
Qed.

Lemma StronglySorted_lookup_lt (R : relation A) (l : list A) i j a b :
  StronglySorted R l → (i < j)%nat → l !! i = Some a → l !! j = Some b → R a b.
Proof.
  intros Hsorted. revert i j.
  induction Hsorted as [|x l Hl IH Hx]; intros i j Hij Hi Hj; [done|].
  destruct j as [|j]; [lia|]. destruct i as [|i]; simpl in *.
  - injection Hi as <-. rewrite Forall_forall in Hx. apply Hx.
    by eapply list_elem_of_lookup_2.
  - apply (IH i j); [lia|done..].
Qed.

Lemma length_filter_fmap {B} (f : A → B) (P : B → Prop)
    `{!∀ y, Decision (P y)} (l : list A) :
  length (filter P (f <$> l)) = length (filter (λ x, P (f x)) l).
Proof.
  induction l as [|x l IH]; [done|]. csimpl.
  rewrite !filter_cons. case_decide; simpl; by rewrite IH.
Qed.

End SortedFacts.

(** ** The filters *)

Lemma select_eq_matches col chosen sentinel (df : DataFrame) :
  (if decide (chosen ≠ sentinel) then select_eq col chosen df else df)
  = filter (λ r, matches (criterion sentinel chosen) (col r)) df.
Proof.
  unfold criterion, select_eq. destruct (decide (chosen ≠ sentinel)); simpl; [done|].
  symmetry. by apply filter_all.
Qed.

Lemma create_interactive_filters_applyFilters df chosen exclude_filters :
  create_interactive_filters df chosen exclude_filters
  = applyFilters df (criteria_of chosen exclude_filters).
Proof.
  unfold create_interactive_filters, applyFilters.
  rewrite !select_eq_matches, !list_filter_filter.
  apply list_filter_iff. intros r. unfold satisfies, criteria_of; simpl.
  destruct (decide ("status" ∉ exclude_filters)); [tauto|].
  unfold criterion at 1; simpl. tauto.
Qed.

Lemma df_kpi_selection_applyFilters df kpi_class kpi_type kpi_status :
  df_kpi_selection df kpi_class kpi_type kpi_status
  = applyFilters df (kpi_criteria kpi_class kpi_type kpi_status).
Proof.
  unfold df_kpi_selection, applyFilters.
  rewrite !select_eq_matches, !list_filter_filter.
  apply list_filter_iff. intros r. unfold satisfies, kpi_criteria; simpl. tauto.
Qed.

Lemma applyFilters_comm df a b :
  applyFilters (applyFilters df a) b = applyFilters (applyFilters df b) a.
Proof.
  unfold applyFilters. rewrite !list_filter_filter.
  apply list_filter_iff. intros r. tauto.
Qed.

Lemma applyFilters_idemp df a :
  applyFilters (applyFilters df a) a = applyFilters df a.
Proof.
  unfold applyFilters. rewrite list_filter_filter.
  apply list_filter_iff. intros r. tauto.
Qed.

Lemma matches_both a b cell :
  a = None ∨ b = None →
  matches (from_option Some b a) cell ↔ matches a cell ∧ matches b cell.
Proof. intros [-> | ->]; [destruct b|destruct a]; simpl; tauto. Qed.

Lemma applyFilters_both df a b :
  distinct_columns a b →
  applyFilters (applyFilters df a) b = applyFilters df (both a b).
Proof.
  intros (Hclass & Htype & Hpurchase & Hstatus).
  unfold applyFilters. rewrite list_filter_filter.
  apply list_filter_iff. intros r. unfold satisfies, both; simpl.
  rewrite !matches_both by done. tauto.
Qed.

(** C3. The rows that [create_interactive_filters] (sentinel "None") and the
    KPI filters (sentinel "All") retain are exactly the rows of the table that
    match every set criterion, each match being equality with the chosen
    value; with every criterion unset the table comes back unchanged; the
    result is a table in every case, the empty one when no row matches. *)
Theorem filters_retain_matching_rows (df : DataFrame) (chosen : Selection)
    (exclude_filters : list string) (kpi_class kpi_type kpi_status : string) :
  let filtered_df := create_interactive_filters df chosen exclude_filters in
  let criteria := criteria_of chosen exclude_filters in
  let df_kpi := df_kpi_selection df kpi_class kpi_type kpi_status in
  let kpi := kpi_criteria kpi_class kpi_type kpi_status in
  filtered_df = applyFilters df criteria
  ∧ (∀ r, r ∈ filtered_df ↔ r ∈ df ∧ satisfies criteria r)
  ∧ df_kpi = applyFilters df kpi
  ∧ (∀ r, r ∈ df_kpi ↔ r ∈ df ∧ satisfies kpi r)
  ∧ create_interactive_filters df
      {| class_filter := "None"; type_filter := "None";
         purchase_filter := "None"; status_filter := "None" |} exclude_filters
    = df
  ∧ df_kpi_selection df "All" "All" "All" = df
  ∧ (filtered_df = [] ↔ ∀ r, r ∈ df → ¬ satisfies criteria r)
  ∧ (df_kpi = [] ↔ ∀ r, r ∈ df → ¬ satisfies kpi r).
Proof.
  intros filtered_df criteria df_kpi kpi.
  assert (Hempty : ∀ c, applyFilters df c = [] ↔ ∀ r, r ∈ df → ¬ satisfies c r).
  { intros c. apply filter_none. }
  assert (Hall : ∀ c, (∀ r, satisfies c r) → applyFilters df c = df).
  { intros c Hc. apply filter_all. auto. }
  unfold filtered_df, df_kpi.
  rewrite !create_interactive_filters_applyFilters, !df_kpi_selection_applyFilters.
  split_and!; try done.
  - intros r. unfold applyFilters. by rewrite list_elem_of_filter, (comm and).
  - intros r. unfold applyFilters. by rewrite list_elem_of_filter, (comm and).
  - apply Hall. intros r. unfold satisfies, criteria_of; simpl.
    by destruct (decide ("status" ∉ exclude_filters)).
  - by apply Hall.
Qed.

(** C9. Filtering commutes and is idempotent: applying the criteria of one
    selection and then those of another gives the same rows in either order,
    applying the same selection twice gives what applying it once gives, and
    two criteria records over distinct columns give, in either order, the
    rows of the table that meet both. *)
Theorem filters_commute_and_are_idempotent (df : DataFrame)
    (a b : Selection) (exclude_a exclude_b : list string) :
  create_interactive_filters (create_interactive_filters df a exclude_a) b exclude_b
  = create_interactive_filters (create_interactive_filters df b exclude_b) a exclude_a
  ∧ create_interactive_filters (create_interactive_filters df a exclude_a) a exclude_a
    = create_interactive_filters df a exclude_a
  ∧ (distinct_columns (criteria_of a exclude_a) (criteria_of b exclude_b) →
     create_interactive_filters (create_interactive_filters df a exclude_a) b exclude_b
     = applyFilters df (both (criteria_of a exclude_a) (criteria_of b exclude_b))
     ∧ create_interactive_filters (create_interactive_filters df b exclude_b) a exclude_a
       = applyFilters df (both (criteria_of a exclude_a) (criteria_of b exclude_b))).
Proof.
  rewrite !create_interactive_filters_applyFilters. split_and!.
  - apply applyFilters_comm.
  - apply applyFilters_idemp.
  - intros Hdistinct. rewrite (applyFilters_comm df (criteria_of b exclude_b)).
    split; by apply applyFilters_both.
Qed.

(** C10. The rows that the filters return are a subsequence of the table:
    the retained rows themselves, in their order in the table. *)
Theorem filters_return_a_subsequence (df : DataFrame) (chosen : Selection)
    (exclude_filters : list string) (kpi_class kpi_type kpi_status : string) :
  create_interactive_filters df chosen exclude_filters `sublist_of` df
  ∧ df_kpi_selection df kpi_class kpi_type kpi_status `sublist_of` df.
Proof.
  rewrite create_interactive_filters_applyFilters, df_kpi_selection_applyFilters.
  split; apply sublist_filter.
Qed.

(** ** Sorting, counting and grouping *)

Section SortFacts.

Context {A : Type} (before : A → A → bool).

Lemma insert_sorted_Permutation x l : insert_sorted before x l ≡ₚ x :: l.
Proof.
  induction l as [|y l IH]; simpl; [done|].
  destruct (before x y); [done|]. rewrite IH. apply Permutation_swap.
Qed.

Lemma stable_sort_Permutation l : stable_sort before l ≡ₚ l.
Proof.
  induction l as [|x l IH]; simpl; [done|].
  by rewrite insert_sorted_Permutation, IH.
Qed.

End SortFacts.

Lemma Sorted_impl {A} (R R' : relation A) (l : list A) :
  (∀ a b, R a b → R' a b) → Sorted R l → Sorted R' l.
Proof.
  intros Himpl Hsorted. induction Hsorted as [|x l _ IH Hx]; constructor; [done|].
  destruct Hx; constructor; auto.
Qed.

Section SortTotalFacts.

Context {A : Type} (before : A → A → bool).

Hypothesis before_total : ∀ x y, before x y = false → before y x = true.

Lemma insert_sorted_Sorted x l :
  Sorted (λ a b, before a b = true) l →
  Sorted (λ a b, before a b = true) (insert_sorted before x l).
Proof.
  induction l as [|y l IH]; simpl; intros Hsorted; [repeat constructor|].
  destruct (before x y) eqn:Hxy; [constructor; [done|by constructor]|].
  apply Sorted_inv in Hsorted as [Hl Hy]. constructor; [by apply IH|].
  destruct l as [|z l]; simpl.
  - constructor. by apply before_total.
  - destruct (before x z); constructor; [by apply before_total|].
    by apply HdRel_inv in Hy.
Qed.

Lemma stable_sort_Sorted l : Sorted (λ a b, before a b = true) (stable_sort before l).
Proof.
  induction l as [|x l IH]; simpl; [constructor|]. by apply insert_sorted_Sorted.
Qed.

End SortTotalFacts.

Section SortTransitiveFacts.

Context {A : Type} (before : A → A → bool).

Hypothesis before_total : ∀ x y, before x y = false → before y x = true.
Hypothesis before_trans :
  ∀ x y z, before x y = true → before y z = true → before x z = true.

Lemma stable_sort_StronglySorted l :
  StronglySorted (λ a b, before a b = true) (stable_sort before l).
Proof.
  apply Sorted_StronglySorted; [|by apply stable_sort_Sorted].
  intros x y z. apply before_trans.
Qed.

(** A stable sort leaves a sorted list as it is. *)
Lemma stable_sort_sorted l :
  StronglySorted (λ a b, before a b = true) l → stable_sort before l = l.
Proof.
  induction l as [|x l IH]; simpl; [done|].
  intros [Hx Hl]%StronglySorted_cons. rewrite (IH Hl).
  destruct l as [|y l]; simpl; [done|].
  apply Forall_cons in Hx as [-> _]. done.
Qed.

End SortTransitiveFacts.

(** Two sorts that [sort_values] may be: one that keeps equal entries in
    their order, one that returns them in the opposite order. *)
Definition stable_sorting : Sorting :=
  {| sort_values := @stable_sort;
     sort_values_Permutation := @stable_sort_Permutation;
     sort_values_Sorted := λ A before l Htotal Htrans,
       stable_sort_StronglySorted before Htotal Htrans l |}.

Lemma reversing_sort_Permutation {A} (before : A → A → bool) (l : list A) :
  stable_sort before (reverse l) ≡ₚ l.
Proof. by rewrite stable_sort_Permutation, reverse_Permutation. Qed.

Definition ties_reversed : Sorting :=
  {| sort_values := λ A before l, stable_sort before (reverse l);
     sort_values_Permutation := @reversing_sort_Permutation;
     sort_values_Sorted := λ A before l Htotal Htrans,
       stable_sort_StronglySorted before Htotal Htrans (reverse l) |}.

Section CountingFacts.

Context {K : Type} `{EqDecision K} {sorting : Sorting}.

Local Open Scope nat_scope.
Local Close Scope string_scope.

Implicit Types (k : K) (col : list (option K)) (s : list (K * nat)).

Abbreviation by_count := (λ x y : K * nat, y.2 <=? x.2).

Lemma assoc_upsert {V} (update : V → V) (init : V) k k' (acc : list (K * V)) :
  assoc k' (upsert update init k acc)
  = if decide (k' = k) then Some (from_option update init (assoc k acc))
    else assoc k' acc.
Proof.
  induction acc as [|[k0 v] acc IH]; simpl.
  - by repeat case_decide.
  - destruct (decide (k = k0)) as [->|Hne]; simpl.
    + by repeat case_decide; simplify_eq.
    + rewrite IH. by repeat case_decide; simplify_eq.
Qed.

Lemma upsert_keys {V} (update : V → V) (init : V) k (acc : list (K * V)) :
  (upsert update init k acc).*1
  = if decide (k ∈ acc.*1) then acc.*1 else acc.*1 ++ [k].
Proof.
  induction acc as [|[k0 v] acc IH]; csimpl; [done|].
  - destruct (decide (k = k0)) as [->|Hne]; csimpl.
    + rewrite decide_True; [done|]. by left.
    + rewrite IH. destruct (decide (k ∈ acc.*1)) as [Hin|Hnin].
      * rewrite decide_True; [done|]. by right.
      * rewrite decide_False; [done|]. by intros [?|?]%elem_of_cons.
Qed.

Lemma assoc_None {V} k (acc : list (K * V)) : assoc k acc = None ↔ k ∉ acc.*1.
Proof.
  induction acc as [|[k0 v] acc IH]; csimpl.
  - split; [intros _; apply not_elem_of_nil|done].
  - rewrite not_elem_of_cons. destruct (decide (k = k0)) as [->|Hne].
    + split; [done|]. by intros [? _].
    + rewrite IH. tauto.
Qed.

Lemma assoc_elem_of {V} k (v : V) (acc : list (K * V)) :
  NoDup acc.*1 → (k, v) ∈ acc ↔ assoc k acc = Some v.
Proof.
  induction acc as [|[k0 v0] acc IH]; csimpl.
  - intros _. split; [by intros ?%elem_of_nil|done].
  - intros [Hk0 Hnodup]%NoDup_cons. rewrite elem_of_cons, (IH Hnodup).
    destruct (decide (k = k0)) as [->|Hne].
    + apply assoc_None in Hk0. rewrite Hk0.
      split; [by intros [[= ->]|[=]]|intros [= ->]; by left].
    + split; [intros [[= ? ?]|?]; [congruence|done]|by right].
Qed.

Lemma tally_snoc col cell :
  tally (col ++ [cell])
  = match cell with
    | Some k => upsert S 1 k (tally col)
    | None => tally col
    end.
Proof. unfold tally. by rewrite foldl_snoc. Qed.

Lemma count_of_snoc k col cell :
  count_of k (col ++ [cell])
  = count_of k col + (if decide (cell = Some k) then 1 else 0).
Proof.
  unfold count_of. rewrite filter_app, length_app. f_equal.
  rewrite filter_cons, filter_nil. by case_decide.
Qed.

Lemma count_of_pos k col : 0 < count_of k col ↔ Some k ∈ col.
Proof.
  unfold count_of. split.
  - intros Hpos. destruct (filter _ col) as [|cell l] eqn:Hfilter; [simpl in *; lia|].
    assert (cell ∈ filter (λ c, c = Some k) col) as [-> ?]%list_elem_of_filter;
      [rewrite Hfilter; by left|done].
  - intros Hin.
    assert (Some k ∈ filter (λ c, c = Some k) col) as Hin'
      by by apply list_elem_of_filter.
    destruct (filter _ col); [by apply elem_of_nil in Hin'|simpl; lia].
Qed.

Lemma assoc_tally k col :
  assoc k (tally col)
  = if decide (count_of k col = 0) then None else Some (count_of k col).
Proof.
  revert k. induction col as [|cell col IH] using rev_ind; intros k; [done|].
  rewrite tally_snoc, count_of_snoc. destruct cell as [k'|].
  - rewrite assoc_upsert, !IH. clear IH.
    repeat case_decide; simplify_eq; simpl; try lia; try done; f_equal; lia.
  - rewrite IH. clear IH.
    repeat case_decide; simplify_eq; try lia; try done; f_equal; lia.
Qed.

Lemma tally_keys k col : k ∈ (tally col).*1 ↔ Some k ∈ col.
Proof.
  rewrite <- count_of_pos.
  destruct (decide (k ∈ (tally col).*1)) as [Hin|Hnin].
  - split; [intros _|done].
    destruct (assoc k (tally col)) as [n|] eqn:Hassoc.
    + rewrite assoc_tally in Hassoc. case_decide; [done|lia].
    + by apply assoc_None in Hassoc.
  - split; [done|]. intros Hpos. apply assoc_None in Hnin.
    rewrite assoc_tally in Hnin. case_decide; [lia|done].
Qed.

Lemma tally_NoDup col : NoDup (tally col).*1.
Proof.
  induction col as [|cell col IH] using rev_ind; [constructor|].
  rewrite tally_snoc. destruct cell as [k|]; [|done].
  rewrite upsert_keys. case_decide as Hin; [done|].
  apply NoDup_app. split_and!; [done| |apply NoDup_singleton].
  intros k' Hk' ->%list_elem_of_singleton. done.
Qed.

Lemma tally_count k n col : (k, n) ∈ tally col → n = count_of k col ∧ 0 < n.
Proof.
  rewrite assoc_elem_of by apply tally_NoDup. rewrite assoc_tally.
  case_decide; [done|]. intros [= <-]. lia.
Qed.

Lemma by_count_total (x y : K * nat) : by_count x y = false → by_count y x = true.
Proof. simpl. rewrite Nat.leb_gt, Nat.leb_le. lia. Qed.

Lemma by_count_trans (x y z : K * nat) :
  by_count x y = true → by_count y z = true → by_count x z = true.
Proof. simpl. rewrite !Nat.leb_le. lia. Qed.

Lemma by_count_sorted s :
  StronglySorted (λ x y, by_count x y = true) s →
  StronglySorted (λ a b, b.2 ≤ a.2) s.
Proof.
  apply StronglySorted_ext_in. intros a b _ _. simpl. by rewrite Nat.leb_le.
Qed.

Lemma value_counts_Permutation col : value_counts col ≡ₚ tally col.
Proof. apply sort_values_Permutation. Qed.

(** Whatever the sort does with equal counts, the counts descend. *)
Lemma value_counts_sorted col :
  StronglySorted (λ a b, b.2 ≤ a.2) (value_counts col).
Proof.
  apply by_count_sorted, sort_values_Sorted;
    [apply by_count_total|apply by_count_trans].
Qed.

(** [nlargest] takes the first [n] entries of the series put in descending
    order. *)
Lemma nlargest_take n s :
  ∃ s', s' ≡ₚ s ∧ StronglySorted (λ a b, b.2 ≤ a.2) s' ∧ nlargest n s = take n s'.
Proof.
  unfold nlargest. case_decide.
  - exists (sort_values by_count s).
    split_and!; [apply sort_values_Permutation| |done].
    apply by_count_sorted, sort_values_Sorted;
      [apply by_count_total|apply by_count_trans].
  - exists (stable_sort by_count s).
    split_and!; [apply stable_sort_Permutation| |done].
    apply by_count_sorted, stable_sort_StronglySorted;
      [apply by_count_total|apply by_count_trans].
Qed.

Lemma upsert_count_sum k s :
  sum_list_with snd (upsert S 1 k s) = S (sum_list_with snd s).
Proof.
  induction s as [|[k' n] s IH]; simpl; [done|].
  case_decide; simpl; [done|]. rewrite IH. lia.
Qed.

Lemma tally_sum col :
  sum_list_with snd (tally col) = length (filter is_Some col).
Proof.
  induction col as [|cell col IH] using rev_ind; [done|].
  rewrite tally_snoc, filter_app, length_app, <- IH.
  destruct cell as [k|].
  - rewrite upsert_count_sum, filter_cons_True by done. simpl. lia.
  - rewrite filter_cons_False by (by intros [? ?]). simpl. lia.
Qed.

Lemma value_counts_sum {R} (key : R → option K) (rows : list R) :
  sum_list_with snd (value_counts (key <$> rows))
  = length (filter (λ r, is_Some (key r)) rows).
Proof.
  rewrite value_counts_Permutation, tally_sum. apply length_filter_fmap.
Qed.

Lemma sum_list_with_take (n : nat) s :
  sum_list_with snd (take n s) ≤ sum_list_with snd s.
Proof.
  rewrite <- (take_drop n s) at 2. rewrite sum_list_with_app. lia.
Qed.

End CountingFacts.

(** The letters of the scenario: A twice, B once, C three times. *)
Lemma value_counts_of_scenario {sorting : Sorting} :
  value_counts (Some <$> ["A"; "A"; "B"; "C"; "C"; "C"])
  = [("C", 3%nat); ("A", 2%nat); ("B", 1%nat)].
Proof.
  pose proof (value_counts_Permutation (Some <$> ["A"; "A"; "B"; "C"; "C"; "C"]))
    as Hperm.
  pose proof (value_counts_sorted (Some <$> ["A"; "A"; "B"; "C"; "C"; "C"]))
    as Hsorted.
  change (tally _) with [("A", 2%nat); ("B", 1%nat); ("C", 3%nat)] in Hperm.
  apply (StronglySorted_unique_strong (λ a b : string * nat, (b.2 ≤ a.2)%nat));
    [|done|repeat constructor; simpl; lia|].
  - intros x1 x2 Hx1 Hx2. rewrite Hperm in Hx1.
    rewrite !elem_of_cons, elem_of_nil in Hx1, Hx2.
    destruct_or!; simplify_eq; simpl; (done || lia).
  - rewrite Hperm. apply Permutation_sym.
    etrans; [apply Permutation_swap|]. apply Permutation_skip, Permutation_swap.
Qed.

(** C4, as the code has it.  [top_n_by_count] returns at most [n] entries,
    each a distinct value of the column with its number of occurrences,
    ordered by count descending; a value left out has no larger count than any
    entry; the counts add up to at most the number of rows.  The order of
    entries with equal counts, and which of them are left out, is what the
    sort of pandas makes of it.  For n = 2 on "A","A","B","C","C","C" it
    returns ("C",3), ("A",2). *)
Theorem top_n_by_count_ranks {K : Type} `{EqDecision K} {sorting : Sorting}
    {R : Type} (subset : list R) (column : R → option K) (n : nat) :
  let col := column <$> subset in
  let top := top_n_by_count subset column n in
  (length top ≤ n)%nat
  ∧ NoDup top.*1
  ∧ (∀ v c, (v, c) ∈ top → c = count_of v col ∧ (0 < c)%nat)
  ∧ (∀ i j v c w d,
       (i < j)%nat → top !! i = Some (v, c) → top !! j = Some (w, d) →
       (d ≤ c)%nat)
  ∧ (∀ v w d,
       Some v ∈ col → v ∉ top.*1 → (w, d) ∈ top →
       length top = n ∧ (count_of v col ≤ d)%nat)
  ∧ (sum_list_with snd top ≤ length subset)%nat
  ∧ top_n_by_count ["A"; "A"; "B"; "C"; "C"; "C"] Some 2
    = [("C", 3%nat); ("A", 2%nat)].
Proof.
  intros col top.
  destruct (nlargest_take n (value_counts col)) as (s & Hperm & Hsorted & Htop).
  change (nlargest n (value_counts col)) with top in Htop. clearbody top.
  rewrite value_counts_Permutation in Hperm.
  rewrite <- (take_drop n s), <- Htop in Hsorted.
  assert (Hin : ∀ e, e ∈ top → e ∈ tally col).
  { intros e He. rewrite <- Hperm.
    rewrite Htop in He. eapply sublist_subseteq; [apply sublist_take|done]. }
  split_and!.
  - rewrite Htop, length_take. lia.
  - apply (sublist_NoDup _ s.*1).
    + rewrite Hperm. apply tally_NoDup.
    + rewrite Htop, fmap_take. apply sublist_take.
  - intros v c Hvc%Hin. by apply tally_count.
  - intros i j v c w d Hij Hi Hj.
    apply StronglySorted_app_1_l in Hsorted.
    apply (StronglySorted_lookup_lt _ _ _ _ _ _ Hsorted Hij Hi Hj).
  - intros v w d Hv Hnot Hwd.
    assert ((v, count_of v col) ∈ tally col) as Hvc.
    { apply assoc_elem_of; [apply tally_NoDup|]. rewrite assoc_tally.
      apply count_of_pos in Hv. case_decide; [lia|done]. }
    rewrite <- Hperm in Hvc.
    rewrite <- (take_drop n s), <- Htop in Hvc.
    apply elem_of_app in Hvc as [Hvc|Hvc].
    { destruct Hnot. by apply (list_elem_of_fmap_2 fst) in Hvc. }
    split; [|apply (StronglySorted_app_1_elem_of _ _ _ _ _ Hsorted Hwd Hvc)].
    rewrite Htop. apply length_take_le.
    destruct (decide (n ≤ length s)%nat); [done|].
    rewrite drop_ge in Hvc by lia. by apply elem_of_nil in Hvc.
  - rewrite Htop.
    etrans; [apply sum_list_with_take|].
    rewrite Hperm, tally_sum.
    etrans; [apply length_filter|]. unfold col. by rewrite length_fmap.
  - unfold top_n_by_count. rewrite value_counts_of_scenario. done.
Qed.

Section GroupingFacts.

Context {K : Type} `{EqDecision K} {R : Type}.

Local Close Scope string_scope.

Global Instance total_Permutation : Proper ((≡ₚ) ==> (=)) total.
Proof.
  intros xs ys Hperm.
  induction Hperm as [|x xs ys _ IH|x y xs|xs ys zs _ IH1 _ IH2]; simpl.
  - done.
  - by rewrite IH.
  - ring.
  - by rewrite IH1.
Qed.

Lemma upsert_value_sum (v : Qc) (k : K) (acc : list (K * Qc)) :
  total (upsert (λ s, s + v)%Qc v k acc).*2 = (total acc.*2 + v)%Qc.
Proof.
  induction acc as [|[k' s] acc IH]; csimpl; [ring|].
  case_decide; csimpl; [ring|]. rewrite IH. ring.
Qed.

Lemma col_sum_app (xs ys : list float) :
  col_sum (xs ++ ys) = (col_sum xs + col_sum ys)%Qc.
Proof.
  unfold col_sum. rewrite fmap_app.
  induction (default 0%Qc <$> xs) as [|x l IH]; simpl; [ring|].
  rewrite IH. ring.
Qed.

Lemma group_sums_snoc (key : R → option K) (value : R → float) df r :
  group_sums key value (df ++ [r])
  = match key r with
    | Some k =>
        let v := default 0%Qc (value r) in
        upsert (λ s, (s + v)%Qc) v k (group_sums key value df)
    | None => group_sums key value df
    end.
Proof. unfold group_sums. by rewrite foldl_snoc. Qed.

Lemma group_sums_total (key : R → option K) (value : R → float) (df : list R) :
  total (group_sums key value df).*2
  = col_sum (value <$> filter (λ r, is_Some (key r)) df).
Proof.
  induction df as [|r df IH] using rev_ind; [done|].
  rewrite group_sums_snoc, filter_app, fmap_app, col_sum_app, <- IH.
  destruct (key r) as [k|] eqn:Hkey.
  - rewrite filter_cons_True by (by rewrite Hkey).
    simpl. rewrite upsert_value_sum. unfold col_sum. simpl. ring.
  - rewrite filter_cons_False by (rewrite Hkey; by intros [? ?]).
    unfold col_sum. simpl. ring.
Qed.

Lemma group_sums_NoDup (key : R → option K) (value : R → float) (df : list R) :
  NoDup (group_sums key value df).*1.
Proof.
  induction df as [|r df IH] using rev_ind; [constructor|].
  rewrite group_sums_snoc. destruct (key r) as [k|]; [|done].
  simpl. rewrite upsert_keys. case_decide as Hin; [done|].
  apply NoDup_app. split_and!; [done| |apply NoDup_singleton].
  intros k' Hk' ->%list_elem_of_singleton. done.
Qed.

(** The entry of a group is the sum of the value column over its rows. *)
Lemma assoc_group_sums (key : R → option K) (value : R → float) (df : list R) k :
  assoc k (group_sums key value df)
  = if decide (Some k ∈ key <$> df)
    then Some (col_sum (value <$> filter (λ r, key r = Some k) df))
    else None.
Proof.
  revert k. induction df as [|r df IH] using rev_ind; intros k; [done|].
  assert (Hnone : ∀ k', Some k' ∉ key <$> df →
            filter (λ r, key r = Some k') df = []).
  { intros k' Hk'. apply filter_none. intros x Hx Hkey. apply Hk'.
    rewrite <- Hkey. by apply list_elem_of_fmap_2. }
  assert (Hlast : ∀ k', Some k ∈ (key <$> df) ++ [k'] ↔
            Some k ∈ key <$> df ∨ k' = Some k).
  { intros k'. rewrite elem_of_app, list_elem_of_singleton.
    split; (intros [?|?]; [by left|by right]). }
  assert (Hone : col_sum (value <$> [r]) = default 0%Qc (value r))
    by (unfold col_sum; simpl; ring).
  assert (Hzero : col_sum (value <$> []) = 0%Qc) by done.
  rewrite group_sums_snoc, fmap_app, filter_app, fmap_app, col_sum_app.
  csimpl. rewrite filter_cons, filter_nil.
  destruct (key r) as [k'|] eqn:Hkey; simpl.
  - rewrite assoc_upsert, !IH. destruct (decide (k = k')) as [->|Hne].
    + rewrite (decide_True (P := Some k' = Some k')) by done.
      rewrite (decide_True (P := _ ∈ _ ++ _)) by (apply Hlast; by right).
      rewrite Hone. f_equal. case_decide as Hin; simpl; [done|].
      rewrite (Hnone _ Hin), Hzero. ring.
    + rewrite (decide_False (P := Some k' = Some k)) by congruence.
      rewrite Hzero.
      destruct (decide (Some k ∈ key <$> df)) as [Hin|Hin].
      * rewrite decide_True by (apply Hlast; by left). f_equal. ring.
      * rewrite decide_False; [done|]. rewrite Hlast. intros [?|?]; congruence.
  - rewrite IH. change (col_sum []) with 0%Qc.
    destruct (decide (Some k ∈ key <$> df)) as [Hin|Hin].
    + rewrite decide_True by (apply Hlast; by left). f_equal. ring.
    + rewrite decide_False; [done|]. rewrite Hlast. intros [?|?]; congruence.
Qed.

End GroupingFacts.


Section LoadedCounts.

Context `{DateParsers} {version : Pandas} {sorting : Sorting}.

(** X14. Where the in-place [fillna] reaches the table (pandas 2 as
    installed), the railcard counts of a table that [load_data] returned
    cover every row: no Railcard is missing there. *)
Lemma railcard_counts_cover_loaded_table (csv : list CsvRow) (cleaned : DataFrame) :
  copy_on_write = false →
  load_data (Some csv) = Ok cleaned →
  sum_list_with snd (railcard_counts cleaned) = length cleaned.
Proof.
  intros Hversion Hload. unfold railcard_counts. rewrite value_counts_sum.
  rewrite filter_all; [done|].
  intros r Hr. by eapply loaded_rows_filled.
Qed.

End LoadedCounts.

(** ** The loader and the queries on sample tables *)

(** The loader on the ticket of the delay scenario: arrival due 08:05,
    actual arrival 08:15. *)
Example delay_of_ten_minutes :
  Delay_in_Mins <$> loaded [plain_ticket 10] = [Some (Q2Qc (inject_Z 10))]
  ∧ Departure_Hour <$> loaded [plain_ticket 10] = [Some 8]
  ∧ Route <$> loaded [plain_ticket 10] = [Some "London Euston to York"].
Proof. split_and!; [compute_done|done..]. Qed.

Example file_not_found : Reference.load_data None = Raise DataSourceNotFound.
Proof. done. Qed.

(** A table in which no departure station is recorded does not load. *)
Example blank_station_column_raises :
  Reference.load_data
    (Some [journey None (Some "First") (Some "Delayed") None])
  = Raise UFuncTypeError.
Proof. done. Qed.

(** Filtering ten loaded rows on the first class keeps its three rows. *)
Example first_class_rows :
  length (loaded ten_tickets) = 10%nat
  ∧ Ticket_Class <$>
      create_interactive_filters (loaded ten_tickets)
        {| class_filter := "First"; type_filter := "None";
           purchase_filter := "None"; status_filter := "None" |} []
    = [Some "First"; Some "First"; Some "First"]
  ∧ create_interactive_filters (loaded ten_tickets)
      {| class_filter := "Second"; type_filter := "None";
         purchase_filter := "None"; status_filter := "None" |} []
    = []
  ∧ top_10_routes (sorting := stable_sorting) (loaded ten_tickets)
    = ["London Euston to York"].
Proof. split_and!; by vm_compute. Qed.

Example departure_time_not_parsed :
  Departure_Datetime <$> loaded [untyped_ticket] = [None]
  ∧ Departure_Hour <$> loaded [untyped_ticket] = [None]
  ∧ Delay_in_Mins <$> loaded [untyped_ticket] = [Some (Q2Qc (inject_Z 10))].
Proof. split_and!; [done..|compute_done]. Qed.

(** Of five tickets priced 10, 12, 11, 13 and 1000 the last is dropped. *)
Example outlier_of_five_tickets :
  Price <$> loaded five_tickets = price_column [10; 12; 11; 13].
Proof. compute_done. Qed.

Lemma route_is_concatenation_witness :
  let cleaned := loaded [plain_ticket 10] in
  load_data (H := Reference.parsers) (version := pandas2) (Some [plain_ticket 10])
  = Ok cleaned
  ∧ Route <$> cleaned = [Some "London Euston to York"]
  ∧ (∀ r, r ∈ cleaned →
       Route r = (departure ← Departure_Station r;
                  arrival ← Arrival_Destination r;
                  Some ((departure +:+ " to ") +:+ arrival)))
  ∧ ∃ kept, kept `sublist_of` [plain_ticket 10]
      ∧ Forall2 (λ x r,
          Departure_Station r = csv_Departure_Station x
          ∧ Arrival_Destination r = csv_Arrival_Destination x
          ∧ Route r = (departure ← csv_Departure_Station x;
                       arrival ← csv_Arrival_Destination x;
                       Some ((departure +:+ " to ") +:+ arrival))) kept cleaned.
Proof.
  assert (Hload : load_data (H := Reference.parsers) (version := pandas2)
                    (Some [plain_ticket 10])
                  = Ok (loaded [plain_ticket 10])) by (vm_compute; reflexivity).
  split; [exact Hload|]. split; [vm_compute; reflexivity|].
  apply (route_is_concatenation [plain_ticket 10] _ Hload).
Defined.



(** C and D both occur twice, C first.  With a sort that returns equal
    counts in the opposite order the two entries come out D before C; with
    one that keeps them in order, C before D. *)
Lemma tied_counts_not_in_first_met_order :
  let subset := ["A"; "B"; "C"; "D"; "C"; "D"] in
  top_n_by_count (sorting := ties_reversed) subset Some 2
  = [("D", 2%nat); ("C", 2%nat)]
  ∧ (first_index "C" (Some <$> subset) < first_index "D" (Some <$> subset))%nat
  ∧ top_n_by_count (sorting := stable_sorting) subset Some 2
    = [("C", 2%nat); ("D", 2%nat)].
Proof. split_and!; [done|vm_compute; lia|done]. Qed.


(** * Further properties of the loader and the views *)

(** ** Sorted series *)

Section KeyFacts.

Context {K : Type} `{EqDecision K} {V : Type}.

Local Close Scope string_scope.

Lemma StronglySorted_NoDup_strict (le lt : relation K) (s : list (K * V)) :
  (∀ a b, le a b → a ≠ b → lt a b) →
  NoDup s.*1 →
  StronglySorted (λ a b, le a.1 b.1) s →
  StronglySorted (λ a b, lt a.1 b.1) s.
Proof.
  intros Hstrict. induction s as [|[k v] s IH]; csimpl; [constructor|].
  intros [Hk Hs]%NoDup_cons [Hle Hsorted]%StronglySorted_cons.
  apply StronglySorted_cons. split; [|by apply IH].
  rewrite Forall_forall in Hle |- *. intros [k' v'] Hin. simpl.
  apply Hstrict; [by apply (Hle _ Hin)|].
  intros ->. apply Hk. by apply (list_elem_of_fmap_2 fst) in Hin.
Qed.

Lemma group_sums_keys {R} (key : R → option K) (value : R → float)
    (df : list R) k :
  k ∈ (group_sums key value df).*1 ↔ Some k ∈ key <$> df.
Proof.
  destruct (decide (k ∈ (group_sums key value df).*1)) as [Hin|Hnin].
  - split; [intros _|done].
    destruct (assoc k (group_sums key value df)) eqn:Hassoc.
    + rewrite assoc_group_sums in Hassoc. by case_decide.
    + by apply assoc_None in Hassoc.
  - split; [done|]. intros Hk. apply assoc_None in Hnin.
    rewrite assoc_group_sums in Hnin. by rewrite decide_True in Hnin.
Qed.

End KeyFacts.

(** X1. The revenue series.  [revenue_by_type] lists the groups of the
    ticket types in descending order of revenue, [revenue_by_class] the
    groups of the ticket classes in ascending order of class name; each lists
    every type (class) that occurs in the table exactly once, with the sum of
    Price over its rows. *)
Theorem revenue_series_order {sorting : Sorting} (df : DataFrame) :
  StronglySorted (λ a b, (b.2 ≤ a.2)%Qc) (revenue_by_type df)
  ∧ Sorted (λ a b, String.leb a.1 b.1 = true) (revenue_by_class df)
  ∧ NoDup (revenue_by_type df).*1
  ∧ NoDup (revenue_by_class df).*1
  ∧ (∀ k, k ∈ (revenue_by_type df).*1 ↔ Some k ∈ Ticket_Type <$> df)
  ∧ (∀ k, k ∈ (revenue_by_class df).*1 ↔ Some k ∈ Ticket_Class <$> df)
  ∧ (∀ k s, (k, s) ∈ revenue_by_type df →
       s = col_sum (Price <$> filter (λ r, Ticket_Type r = Some k) df))
  ∧ (∀ k s, (k, s) ∈ revenue_by_class df →
       s = col_sum (Price <$> filter (λ r, Ticket_Class r = Some k) df)).
Proof.
  assert (Hentry : ∀ (key : Row → option string) k s,
    (k, s) ∈ group_sums key Price df →
    s = col_sum (Price <$> filter (λ r, key r = Some k) df)).
  { intros key k s Hks. apply assoc_elem_of in Hks; [|apply group_sums_NoDup].
    rewrite assoc_group_sums in Hks. case_decide; [|done]. by injection Hks. }
  unfold revenue_by_type, revenue_by_class, groupby_sum. split_and!.
  - eapply StronglySorted_ext_in; [|apply sort_values_Sorted].
    + intros a b _ _. apply bool_decide_eq_true.
    + intros a b Hab. apply bool_decide_eq_true.
      apply bool_decide_eq_false in Hab. apply Qclt_le_weak. by apply Qclt_nge.
    + intros a b c Hab%bool_decide_eq_true Hbc%bool_decide_eq_true.
      apply bool_decide_eq_true. by etrans.
  - apply stable_sort_Sorted. intros a b Hab.
    by destruct (String.leb_total a.1 b.1) as [Hle|Hle]; [congruence|].
  - rewrite sort_values_Permutation, stable_sort_Permutation.
    apply group_sums_NoDup.
  - rewrite stable_sort_Permutation. apply group_sums_NoDup.
  - intros k. rewrite sort_values_Permutation, stable_sort_Permutation.
    apply group_sums_keys.
  - intros k. rewrite stable_sort_Permutation. apply group_sums_keys.
  - intros k s. rewrite sort_values_Permutation, stable_sort_Permutation.
    apply Hentry.
  - intros k s. rewrite stable_sort_Permutation. apply Hentry.
Qed.

(** ** Derived fields and the journeys by hour *)

Section DerivedFields.

Context `{DateParsers} {version : Pandas} {sorting : Sorting}.

Local Close Scope string_scope.

Lemma dt_hour_range t h : dt_hour t = Some h → 0 ≤ h ≤ 23.
Proof.
  destruct t as [ns|]; simpl; [|done]. intros [= <-].
  pose proof (Z.mod_pos_bound (ns / 3600000000000) 24). lia.
Qed.

Lemma loaded_hour_range csv cleaned r h :
  load_data (Some csv) = Ok cleaned → r ∈ cleaned →
  Departure_Hour r = Some h → 0 ≤ h ≤ 23.
Proof.
  intros Hload (x & p & j & d & a & c & _ & ->)%(loaded_row_of _ _ _ Hload).
  apply dt_hour_range.
Qed.

(** X2. In every row that [load_data] returns, Departure Hour is defined
    exactly when Departure Datetime is, and is then between 0 and 23; Delay in
    Mins is defined exactly when both Arrival Datetime and Actual Arrival
    Datetime are. *)
Theorem derived_fields_defined (csv : list CsvRow) (cleaned : DataFrame) :
  load_data (Some csv) = Ok cleaned →
  ∀ r, r ∈ cleaned →
    (is_Some (Departure_Hour r) ↔ is_Some (Departure_Datetime r))
    ∧ (∀ h, Departure_Hour r = Some h → 0 ≤ h ≤ 23)
    ∧ (is_Some (Delay_in_Mins r) ↔
       is_Some (Arrival_Datetime r) ∧ is_Some (Actual_Arrival_Datetime r)).
Proof.
  intros Hload r (x & p & j & d & a & c & _ & ->)%(loaded_row_of _ _ _ Hload).
  simpl. split_and!.
  - destruct d; simpl; split; intros [? ?]; done.
  - apply dt_hour_range.
  - unfold minutes_between. destruct a, c; simpl; split;
      try (intros [? ?]; done); try (intros [[? ?] [? ?]]; done); eauto.
Qed.

(** X3. The journeys by hour of a loaded table: the bars are in strictly
    ascending order of hour, every hour lies between 0 and 23, so there are at
    most 24 bars; each hour that some row departs in has one bar, which counts
    the rows departing in that hour. *)
Theorem journeys_by_hour_bars (csv : list CsvRow) (cleaned : DataFrame) :
  load_data (Some csv) = Ok cleaned →
  let bars := journeys_by_hour cleaned in
  StronglySorted (λ a b, a.1 < b.1) bars
  ∧ (length bars ≤ 24)%nat
  ∧ (∀ h, h ∈ bars.*1 ↔ Some h ∈ Departure_Hour <$> cleaned)
  ∧ (∀ h n, (h, n) ∈ bars →
       0 ≤ h ≤ 23 ∧ (0 < n)%nat
       ∧ n = length (filter (λ r, Departure_Hour r = Some h) cleaned)).
Proof.
  intros Hload bars.
  assert (Hperm : bars ≡ₚ tally (Departure_Hour <$> cleaned)).
  { unfold bars, journeys_by_hour.
    by rewrite stable_sort_Permutation, value_counts_Permutation. }
  assert (Hnodup : NoDup bars.*1) by (rewrite Hperm; apply tally_NoDup).
  assert (Hkeys : ∀ h, h ∈ bars.*1 ↔ Some h ∈ Departure_Hour <$> cleaned).
  { intros h. rewrite Hperm. apply tally_keys. }
  assert (Hrange : ∀ h, h ∈ bars.*1 → 0 ≤ h ≤ 23).
  { intros h (r & Hh & Hr)%Hkeys%list_elem_of_fmap.
    symmetry in Hh. by apply (loaded_hour_range _ _ r h Hload Hr). }
  split_and!; [| |done|].
  - apply (StronglySorted_NoDup_strict Z.le); [lia|done|].
    apply Sorted_StronglySorted.
    { intros a b c ??. lia. }
    eapply Sorted_impl; [|apply stable_sort_Sorted].
    + intros a b Hab. by apply bool_decide_eq_true in Hab.
    + intros a b Hab. apply bool_decide_eq_true.
      apply bool_decide_eq_false in Hab. lia.
  - rewrite <- (length_fmap fst).
    change 24%nat with (Z.to_nat 24). rewrite <- (length_seqZ 0 24).
    apply submseteq_length, NoDup_submseteq; [done|].
    intros h Hh%Hrange. apply elem_of_seqZ. lia.
  - intros h n Hhn. split; [apply Hrange; by apply (list_elem_of_fmap_2 fst) in Hhn|].
    rewrite Hperm in Hhn. apply tally_count in Hhn as [-> Hpos].
    split; [done|]. apply length_filter_fmap.
Qed.

End DerivedFields.

(** ** The select boxes and the filters *)

Section FilterViews.

Local Close Scope string_scope.

Lemma unique_snoc col cell :
  unique (col ++ [cell])
  = if decide (cell ∈ unique col) then unique col else unique col ++ [cell].
Proof. unfold unique. by rewrite foldl_snoc. Qed.

Lemma elem_of_unique col cell : cell ∈ unique col ↔ cell ∈ col.
Proof.
  induction col as [|c col IH] using rev_ind; [done|].
  rewrite unique_snoc, elem_of_app, list_elem_of_singleton, <- IH.
  case_decide as Hc; [|rewrite elem_of_app, list_elem_of_singleton; tauto].
  split; [tauto|]. intros [?| ->]; done.
Qed.

Lemma unique_NoDup col : NoDup (unique col).
Proof.
  induction col as [|c col IH] using rev_ind; [constructor|].
  rewrite unique_snoc. case_decide as Hc; [done|].
  apply NoDup_app. split_and!; [done| |apply NoDup_singleton].
  intros x Hx ->%list_elem_of_singleton. done.
Qed.

Lemma select_listed_value (column : Row → option string) (df : DataFrame) sentinel v :
  Some v ∈ options sentinel (column <$> df) → v ≠ sentinel →
  select_eq column v df ≠ [] ∧ ∀ r, r ∈ select_eq column v df → column r = Some v.
Proof.
  intros [[= ?]|Hv]%elem_of_cons Hne; [done|].
  apply elem_of_unique, list_elem_of_fmap in Hv as (r & Hr & Hin).
  unfold select_eq. split.
  - intros Hnil. eapply filter_nil_not_elem_of; [exact Hnil| |exact Hin]. done.
  - by intros r' [? _]%list_elem_of_filter.
Qed.

End FilterViews.

Lemma only_class_select df v :
  v ≠ "None" → create_interactive_filters df (only_class v) [] = select_eq Ticket_Class v df.
Proof. intros Hv. unfold create_interactive_filters. simpl. by rewrite decide_True. Qed.

Lemma only_type_select df v :
  v ≠ "None" → create_interactive_filters df (only_type v) [] = select_eq Ticket_Type v df.
Proof. intros Hv. unfold create_interactive_filters. simpl. by rewrite decide_True. Qed.

Lemma only_purchase_select df v :
  v ≠ "None" →
  create_interactive_filters df (only_purchase v) [] = select_eq Purchase_Type v df.
Proof. intros Hv. unfold create_interactive_filters. simpl. by rewrite decide_True. Qed.

Lemma only_status_select df v :
  v ≠ "None" →
  create_interactive_filters df (only_status v) [] = select_eq Journey_Status v df.
Proof. intros Hv. unfold create_interactive_filters. simpl. by rewrite decide_True. Qed.

(** X4. A select box offers 'None' and the distinct cells of its column, a
    missing cell (nan) among them when the column has a blank.  Choosing one
    of the offered texts other than 'None', the other boxes left at 'None',
    never gives an empty table: the rows returned are the rows with that
    text, and there is one. *)
Theorem listed_option_finds_rows (df : DataFrame) (v : string) :
  v ≠ "None" →
  (∀ (column : Row → option string) cell,
     cell ∈ options "None" (column <$> df) ↔
     cell = Some "None" ∨ cell ∈ column <$> df)
  ∧ (Some v ∈ options "None" (Ticket_Class <$> df) →
   create_interactive_filters df (only_class v) [] ≠ []
   ∧ ∀ r, r ∈ create_interactive_filters df (only_class v) [] →
       Ticket_Class r = Some v)
  ∧ (Some v ∈ options "None" (Ticket_Type <$> df) →
     create_interactive_filters df (only_type v) [] ≠ []
     ∧ ∀ r, r ∈ create_interactive_filters df (only_type v) [] →
         Ticket_Type r = Some v)
  ∧ (Some v ∈ options "None" (Purchase_Type <$> df) →
     create_interactive_filters df (only_purchase v) [] ≠ []
     ∧ ∀ r, r ∈ create_interactive_filters df (only_purchase v) [] →
         Purchase_Type r = Some v)
  ∧ (Some v ∈ options "None" (Journey_Status <$> df) →
     create_interactive_filters df (only_status v) [] ≠ []
     ∧ ∀ r, r ∈ create_interactive_filters df (only_status v) [] →
         Journey_Status r = Some v).
Proof.
  intros Hv.
  rewrite only_class_select, only_type_select, only_purchase_select,
    only_status_select by done.
  split_and!; [|intros Hlisted; by eapply select_listed_value..].
  intros column cell. unfold options. by rewrite elem_of_cons, elem_of_unique.
Qed.

(** X5. With 'status' excluded, the status box plays no part: the table
    returned is the one for the same class, type and purchase choices with
    the status left at 'None'.  Keeping the delayed journeys of that table
    gives what the four filters give with the status set to 'Delayed', and
    every row kept is a delayed journey. *)
Theorem excluded_status_then_delayed (df : DataFrame) (chosen : Selection)
    (exclude_filters : list string) :
  "status" ∈ exclude_filters →
  let no_status :=
    {| class_filter := class_filter chosen; type_filter := type_filter chosen;
       purchase_filter := purchase_filter chosen; status_filter := "None" |} in
  let delayed :=
    {| class_filter := class_filter chosen; type_filter := type_filter chosen;
       purchase_filter := purchase_filter chosen; status_filter := "Delayed" |} in
  create_interactive_filters df chosen exclude_filters
  = create_interactive_filters df no_status []
  ∧ delayed_journeys (create_interactive_filters df chosen exclude_filters)
    = create_interactive_filters df delayed []
  ∧ ∀ r, r ∈ delayed_journeys (create_interactive_filters df chosen exclude_filters) →
      r ∈ df ∧ Journey_Status r = Some "Delayed".
Proof.
  intros Hexcluded no_status delayed.
  assert (Hfirst : create_interactive_filters df chosen exclude_filters
                   = create_interactive_filters df no_status []).
  { unfold create_interactive_filters. simpl.
    by rewrite (decide_False (P := "status" ∉ exclude_filters)) by tauto. }
  assert (Hsecond :
    delayed_journeys (create_interactive_filters df no_status [])
    = create_interactive_filters df delayed []).
  { unfold create_interactive_filters, delayed_journeys. simpl. done. }
  split_and!; [done|by rewrite Hfirst|].
  intros r Hr. unfold delayed_journeys, select_eq in Hr.
  apply list_elem_of_filter in Hr as [Hstatus Hr]. split; [|done].
  eapply sublist_subseteq; [|exact Hr].
  rewrite create_interactive_filters_applyFilters. apply sublist_filter.
Qed.

(** ** The counted series and the insights drawn from them *)

Section CountedSeries.

Context {K : Type} `{EqDecision K} {sorting : Sorting}.

Local Close Scope string_scope.
Local Open Scope nat_scope.

Implicit Types (col : list (option K)).

Lemma value_counts_keys col k : k ∈ (value_counts col).*1 ↔ Some k ∈ col.
Proof. rewrite value_counts_Permutation. apply tally_keys. Qed.

Lemma value_counts_NoDup col : NoDup (value_counts col).*1.
Proof. rewrite value_counts_Permutation. apply tally_NoDup. Qed.

Lemma tally_entry col k n :
  (k, n) ∈ tally col ↔ n = count_of k col ∧ 0 < n.
Proof.
  rewrite assoc_elem_of by apply tally_NoDup. rewrite assoc_tally.
  case_decide; split; try done; try lia.
  - intros [= <-]. lia.
  - by intros [-> _].
Qed.

Lemma value_counts_entry col k n :
  (k, n) ∈ value_counts col ↔ n = count_of k col ∧ 0 < n.
Proof. rewrite value_counts_Permutation. apply tally_entry. Qed.

Lemma value_counts_nil col : value_counts col = [] ↔ ∀ cell, cell ∈ col → cell = None.
Proof.
  split.
  - intros Hnil [k|] Hcell; [|done].
    apply value_counts_keys in Hcell. rewrite Hnil in Hcell.
    by apply elem_of_nil in Hcell.
  - intros Hnone. destruct (value_counts col) as [|[k n] s] eqn:Hvc; [done|].
    assert (k ∈ (value_counts col).*1) as Hk%value_counts_keys%Hnone
      by (rewrite Hvc; by left).
    done.
Qed.

(** The head of a series of the counts of [col] in descending order: no
    value of the column occurs more often. *)
Lemma descending_counts_head col (s : list (K * nat)) :
  s ≡ₚ tally col → StronglySorted (λ a b, b.2 ≤ a.2) s →
  match s with
  | [] => ∀ cell, cell ∈ col → cell = None
  | (k, c) :: _ =>
      Some k ∈ col ∧ c = count_of k col
      ∧ ∀ other, Some other ∈ col → count_of other col ≤ c
  end.
Proof.
  intros Hperm Hsorted. destruct s as [|[k c] s].
  - intros [k|] Hcell; [|done].
    apply tally_keys in Hcell. rewrite <- Hperm in Hcell.
    by apply elem_of_nil in Hcell.
  - assert ((k, c) ∈ tally col) as [-> Hpos]%tally_entry
      by (rewrite <- Hperm; by left).
    split_and!; [by apply count_of_pos|done|].
    intros other Hother.
    assert ((other, count_of other col) ∈ tally col) as Hin.
    { apply tally_entry. split; [done|]. by apply count_of_pos. }
    rewrite <- Hperm in Hin.
    apply elem_of_cons in Hin as [[= _ ->]|Hin]; [done|].
    apply StronglySorted_cons in Hsorted as [Hfirst _].
    rewrite Forall_forall in Hfirst. apply (Hfirst _ Hin).
Qed.

Lemma value_counts_head col :
  match value_counts col with
  | [] => ∀ cell, cell ∈ col → cell = None
  | (k, c) :: _ =>
      Some k ∈ col ∧ c = count_of k col
      ∧ ∀ other, Some other ∈ col → count_of other col ≤ c
  end.
Proof.
  apply descending_counts_head;
    [apply value_counts_Permutation|apply value_counts_sorted].
Qed.

Lemma nlargest_head n col :
  match nlargest (S n) (value_counts col) with
  | [] => ∀ cell, cell ∈ col → cell = None
  | (k, c) :: _ =>
      Some k ∈ col ∧ c = count_of k col
      ∧ ∀ other, Some other ∈ col → count_of other col ≤ c
  end.
Proof.
  destruct (nlargest_take (S n) (value_counts col)) as (s & Hperm & Hsorted & ->).
  rewrite value_counts_Permutation in Hperm.
  pose proof (descending_counts_head col s Hperm Hsorted) as Hhead.
  by destruct s as [|[k c] s].
Qed.

(** X6. A counted series ([value_counts], behind the status, purchase type
    and railcard charts and the delay reasons) lists every value that
    occurs in the column exactly once, with the number of cells holding it,
    larger counts first, whatever the sort does with equal counts; it is
    empty exactly when every cell of the column is missing. *)
Theorem counted_series_lists_every_value col :
  NoDup (value_counts col).*1
  ∧ (∀ k, k ∈ (value_counts col).*1 ↔ Some k ∈ col)
  ∧ (∀ k n, (k, n) ∈ value_counts col ↔ n = count_of k col ∧ 0 < n)
  ∧ StronglySorted (λ a b, b.2 ≤ a.2) (value_counts col)
  ∧ (value_counts col = [] ↔ ∀ cell, cell ∈ col → cell = None).
Proof.
  split_and!.
  - apply value_counts_NoDup.
  - apply value_counts_keys.
  - apply value_counts_entry.
  - apply value_counts_sorted.
  - apply value_counts_nil.
Qed.

End CountedSeries.

Section RouteInsight.

Context {sorting : Sorting}.

(** X7. The block of the popular routes.  It shows the no-data notice
    exactly for an empty table, and raises IndexError exactly for a table
    that has rows but no route (a station is missing in every row).
    Otherwise the route it names occurs in the table and no other route
    occurs more often. *)
Theorem top_route_name_cases (df : DataFrame) :
  (top_route_name df = NoData ↔ df = [])
  ∧ (top_route_name df = IndexError ↔ df ≠ [] ∧ ∀ r, r ∈ df → Route r = None)
  ∧ (∀ name, top_route_name df = Insight name →
       Some name ∈ Route <$> df
       ∧ ∀ other, Some other ∈ Route <$> df →
           (count_of other (Route <$> df) ≤ count_of name (Route <$> df))%nat).
Proof.
  pose proof (nlargest_head 9 (Route <$> df)) as Hhead.
  unfold top_route_name, top_10_routes, top_n_by_count.
  destruct df as [|r0 df];
    [split_and!; [done|split; [done|by intros [? _]]|done]|].
  remember (r0 :: df) as table eqn:Htable.
  destruct (nlargest 10 (value_counts (Route <$> table))) as [|[k c] s]; csimpl.
  - split_and!; [by subst|split|done].
    + intros _. split; [by subst|]. intros r Hr. apply Hhead.
      by apply list_elem_of_fmap_2.
    + done.
  - destruct Hhead as (Hk & -> & Hmost).
    split_and!; [by subst|split; [done|]|].
    + intros [_ Hnone].
      apply list_elem_of_fmap in Hk as (r & Hroute & Hr).
      rewrite (Hnone r Hr) in Hroute. done.
    + intros ? [= <-]. done.
Qed.

End RouteInsight.

Section RoutePlot.

Context {sorting : Sorting}.

Local Close Scope string_scope.
Local Open Scope nat_scope.

Lemma length_filter_or {A} (P Q : A → Prop)
    `{!∀ x, Decision (P x), !∀ x, Decision (Q x)} (l : list A) :
  (∀ x, P x → Q x → False) →
  length (filter (λ x, P x ∨ Q x) l) = length (filter P l) + length (filter Q l).
Proof.
  intros Hdisjoint. induction l as [|x l IH]; [done|].
  rewrite !filter_cons.
  destruct (decide (P x)) as [HP|HP], (decide (Q x)) as [HQ|HQ].
  - destruct (Hdisjoint x HP HQ).
  - rewrite decide_True by tauto. simpl. lia.
  - rewrite decide_True by tauto. simpl. lia.
  - rewrite decide_False by tauto. done.
Qed.

Lemma length_filter_isin {A} (column : A → option string) (l : list A)
    (s : list (string * nat)) :
  NoDup s.*1 →
  Forall (λ e, e.2 = length (filter (λ x, column x = Some e.1) l)) s →
  length (filter (λ x, isin s.*1 (column x)) l) = sum_list_with snd s.
Proof.
  induction s as [|[k n] s IH]; csimpl.
  - intros _ _. apply length_zero_iff_nil, filter_none.
    intros x _. destruct (column x); simpl; [apply not_elem_of_nil|tauto].
  - intros [Hk Hs]%NoDup_cons [Hn Hrest]%Forall_cons. simpl in Hn.
    rewrite <- (IH Hs Hrest), Hn, <- length_filter_or.
    + f_equal. apply list_filter_iff. intros x.
      destruct (column x) as [v|]; simpl.
      * rewrite elem_of_cons. split; intros [?|?]; auto; left; congruence.
      * split; [done|]. by intros [?|?].
    + intros x Hx. rewrite Hx. simpl. done.
Qed.

(** X8. The rows plotted for the popular routes are the rows of the filtered
    table whose route is one of the top ten, in their order in the table;
    there are as many of them as the counts of the top ten routes add up to,
    and at most ten routes are plotted. *)
Theorem plot_df_routes_rows (df : DataFrame) :
  plot_df_routes df `sublist_of` df
  ∧ (∀ r, r ∈ plot_df_routes df ↔
       r ∈ df ∧ ∃ name, Route r = Some name ∧ name ∈ top_10_routes df)
  ∧ length (plot_df_routes df) = sum_list_with snd (top_n_by_count df Route 10)
  ∧ length (top_10_routes df) ≤ 10
  ∧ NoDup (top_10_routes df).
Proof.
  destruct (nlargest_take 10 (value_counts (Route <$> df)))
    as (s & Hperm & _ & Htop).
  change (nlargest 10 (value_counts (Route <$> df)))
    with (top_n_by_count df Route 10) in Htop.
  assert (Hnodup : NoDup (top_10_routes df)).
  { unfold top_10_routes. rewrite Htop, fmap_take.
    apply (sublist_NoDup _ s.*1); [|apply sublist_take].
    rewrite Hperm. apply value_counts_NoDup. }
  split_and!; [apply sublist_filter| | | |done].
  - intros r. unfold plot_df_routes. rewrite list_elem_of_filter.
    destruct (Route r) as [name|]; simpl.
    + split; [intros [? ?]; eauto|]. by intros [? (? & [= <-] & ?)].
    + split; [by intros [[] _]|]. by intros [_ (? & [=] & _)].
  - unfold plot_df_routes, top_10_routes. apply length_filter_isin; [done|].
    apply Forall_forall. intros [k n] Hkn. simpl.
    rewrite Htop in Hkn. apply (sublist_subseteq _ _ (sublist_take _ _)) in Hkn.
    rewrite Hperm in Hkn.
    apply value_counts_entry in Hkn as [-> _]. apply length_filter_fmap.
  - unfold top_10_routes. rewrite length_fmap, Htop, length_take. lia.
Qed.

End RoutePlot.

Section DelayInsight.

Context `{DateParsers} {version : Pandas} {sorting : Sorting}.

(** X9. The block of the delay reasons, on a table that [load_data] returned,
    filtered by any selection.  It shows the no-data notice exactly when no
    filtered row is a delayed journey, and raises IndexError exactly when
    there are delayed journeys and none of them has a reason; where the
    in-place [fillna] reaches the table (pandas 2 as installed) no Reason for
    Delay is missing, and it never raises.  Otherwise the reason it names is
    one of a delayed journey, and no other reason occurs more often among
    them. *)
Theorem top_delay_reason_of_loaded_table (csv : list CsvRow) (cleaned : DataFrame)
    (chosen : Selection) (exclude_filters : list string) :
  load_data (Some csv) = Ok cleaned →
  let filtered := create_interactive_filters cleaned chosen exclude_filters in
  let reasons := Reason_for_Delay <$> delayed_journeys filtered in
  (top_delay_reason filtered = NoData ↔
     ∀ r, r ∈ filtered → Journey_Status r ≠ Some "Delayed")
  ∧ (top_delay_reason filtered = IndexError ↔
     delayed_journeys filtered ≠ []
     ∧ ∀ r, r ∈ delayed_journeys filtered → Reason_for_Delay r = None)
  ∧ (copy_on_write = false → top_delay_reason filtered ≠ IndexError)
  ∧ (∀ reason, top_delay_reason filtered = Insight reason →
       Some reason ∈ reasons
       ∧ ∀ other, Some other ∈ reasons →
           (count_of other reasons ≤ count_of reason reasons)%nat).
Proof.
  intros Hload filtered reasons.
  assert (Hreason : copy_on_write = false →
            ∀ r, r ∈ delayed_journeys filtered → is_Some (Reason_for_Delay r)).
  { intros Hversion r [_ Hr]%list_elem_of_filter.
    eapply loaded_rows_filled; [done..|].
    eapply sublist_subseteq; [|exact Hr]. unfold filtered.
    rewrite create_interactive_filters_applyFilters. apply sublist_filter. }
  assert (Hempty : delayed_journeys filtered = [] ↔
                   ∀ r, r ∈ filtered → Journey_Status r ≠ Some "Delayed")
    by apply filter_none.
  pose proof (value_counts_head reasons) as Hhead.
  unfold top_delay_reason, top_delay_reasons. fold reasons.
  destruct (delayed_journeys filtered) as [|r0 rest] eqn:Hdelayed.
  { split_and!; [by rewrite <- Hempty|split; [done|by intros [? _]]|done..]. }
  destruct (value_counts reasons) as [|[k n] s] eqn:Hvc; csimpl.
  - split_and!; [split; [done|by intros ?%Hempty]| | |done].
    + split; [|done]. intros _. split; [done|].
      intros r Hr. apply Hhead. by apply list_elem_of_fmap_2.
    + intros Hversion _. destruct (Hreason Hversion r0) as [v Hv]; [by left|].
      assert (Some v = None) as [=]. apply Hhead.
      rewrite <- Hv. apply list_elem_of_fmap_2. by left.
  - destruct Hhead as (Hk & -> & Hmost).
    split_and!; [split; [done|by intros ?%Hempty]|split; [done|]|done|].
    + intros [_ Hnone].
      apply list_elem_of_fmap in Hk as (r & Hk & Hr).
      rewrite (Hnone r Hr) in Hk. done.
    + intros ? [= <-]. done.
Qed.

End DelayInsight.

(** ** The quartiles and the outlier band *)

Section Quartiles.

Local Close Scope string_scope.
















End Quartiles.

Section EmptyLoad.

Context `{DateParsers} {version : Pandas}.


End EmptyLoad.

Section RowOrder.

Context `{DateParsers} {version : Pandas}.

(** X13. [load_data] neither reorders nor duplicates rows: the rows it
    returns stand, in order, for a subsequence of the input rows, and each
    holds its input row's price, stations, class, type, purchase type, status
    and time texts unchanged. *)
Theorem load_data_keeps_row_order (csv : list CsvRow) (cleaned : DataFrame) :
  load_data (Some csv) = Ok cleaned →
  ∃ kept, kept `sublist_of` csv ∧ Forall2 same_cells kept cleaned.
Proof.
  intros (df & Hdf & ->)%load_data_inv.
  destruct (engineered_rows _ _ Hdf) as [Hlen Hrows].
  rewrite remove_outliers_within_band. apply Forall2_filter_r.
  apply Forall2_same_length_lookup_2; [done|].
  intros i x r Hx Hr. destruct (Hrows i x Hx) as [_ Hr'].
  rewrite Hr in Hr'. injection Hr' as ->. by repeat split.
Qed.

End RowOrder.

(** ** The further properties on sample tables *)

(** The first-class journey of [two_classes] starts from an unrecorded
    station and has no route: the table filtered on the first class is not
    empty and yet has no route to show. *)
Example unrecorded_station_has_no_top_route :
  top_route_name (sorting := stable_sorting)
    (create_interactive_filters (loaded two_classes) (only_class "First") [])
  = IndexError.
Proof. vm_compute. reflexivity. Qed.

(** A delayed journey whose reason is blank is counted under 'On Time' where
    the in-place [fillna] reaches the table; under Copy-on-Write it has no
    reason, and the block of the delay reasons raises. *)
Example blank_reason_counts_as_on_time :
  top_delay_reason (sorting := stable_sorting) (loaded two_classes)
  = Insight "On Time"
  ∧ top_delay_reason (sorting := stable_sorting) (loaded_copy_on_write two_classes)
    = IndexError.
Proof. split; vm_compute; reflexivity. Qed.

(** The status counts of A, B, C, D, C, D come out D, C, B, A with a sort
    that returns equal counts in the opposite order. *)
Example tied_status_counts :
  value_counts (sorting := ties_reversed)
    (Some <$> ["A"; "B"; "C"; "D"; "C"; "D"])
  = [("D", 2%nat); ("C", 2%nat); ("B", 1%nat); ("A", 1%nat)].
Proof. done. Qed.

Lemma derived_fields_defined_witness :
  let cleaned := loaded [plain_ticket 10; untyped_ticket] in
  load_data (H := Reference.parsers) (version := pandas2)
    (Some [plain_ticket 10; untyped_ticket])
  = Ok cleaned
  ∧ ∀ r, r ∈ cleaned →
      (is_Some (Departure_Hour r) ↔ is_Some (Departure_Datetime r))
      ∧ (∀ h, Departure_Hour r = Some h → 0 ≤ h ≤ 23)
      ∧ (is_Some (Delay_in_Mins r) ↔
         is_Some (Arrival_Datetime r) ∧ is_Some (Actual_Arrival_Datetime r)).
Proof.
  assert (Hload : load_data (H := Reference.parsers) (version := pandas2)
                    (Some [plain_ticket 10; untyped_ticket])
                  = Ok (loaded [plain_ticket 10; untyped_ticket]))
    by (vm_compute; reflexivity).
  split; [exact Hload|].
  apply (derived_fields_defined [plain_ticket 10; untyped_ticket] _ Hload).
Defined.

Lemma journeys_by_hour_bars_witness :
  let cleaned := loaded four_journeys in
  let bars := journeys_by_hour (sorting := stable_sorting) cleaned in
  load_data (H := Reference.parsers) (version := pandas2) (Some four_journeys)
  = Ok cleaned
  ∧ StronglySorted (λ a b, a.1 < b.1) bars
  ∧ (length bars ≤ 24)%nat
  ∧ (∀ h, h ∈ bars.*1 ↔ Some h ∈ Departure_Hour <$> cleaned)
  ∧ (∀ h n, (h, n) ∈ bars →
       0 ≤ h ≤ 23 ∧ (0 < n)%nat
       ∧ n = length (filter (λ r, Departure_Hour r = Some h) cleaned)).
Proof.
  assert (Hload : load_data (H := Reference.parsers) (version := pandas2)
                    (Some four_journeys)
                  = Ok (loaded four_journeys)) by (vm_compute; reflexivity).
  split; [exact Hload|].
  apply (journeys_by_hour_bars (sorting := stable_sorting) four_journeys _ Hload).
Defined.

Lemma listed_option_finds_rows_witness :
  let df := loaded ten_tickets in
  "First" ≠ "None"
  ∧ (Some "First" ∈ options "None" (Ticket_Class <$> df) →
     create_interactive_filters df (only_class "First") [] ≠ []
     ∧ ∀ r, r ∈ create_interactive_filters df (only_class "First") [] →
         Ticket_Class r = Some "First").
Proof.
  assert (Hfirst : "First" ≠ "None") by discriminate.
  split; [exact Hfirst|].
  destruct (listed_option_finds_rows (loaded ten_tickets) "First" Hfirst)
    as (_ & Hclass & _).
  exact Hclass.
Defined.

Lemma excluded_status_then_delayed_witness :
  let df := loaded four_journeys in
  let chosen := only_status "On Time" in
  "status" ∈ ["status"]
  ∧ create_interactive_filters df chosen ["status"] = df
  ∧ ∀ r, r ∈ delayed_journeys (create_interactive_filters df chosen ["status"]) →
      r ∈ df ∧ Journey_Status r = Some "Delayed".
Proof.
  assert (Hexcluded : "status" ∈ ["status"]) by apply list_elem_of_here.
  split; [exact Hexcluded|].
  destruct (excluded_status_then_delayed (loaded four_journeys)
              (only_status "On Time") ["status"] Hexcluded)
    as (Hsame & _ & Hdelayed).
  split; [|exact Hdelayed].
  rewrite Hsame. vm_compute. reflexivity.
Defined.

Lemma top_delay_reason_of_loaded_table_witness :
  let cleaned := loaded four_journeys in
  let filtered := create_interactive_filters cleaned (only_class "First") ["status"] in
  load_data (H := Reference.parsers) (version := pandas2) (Some four_journeys)
  = Ok cleaned
  ∧ (top_delay_reason (sorting := stable_sorting) filtered = NoData ↔
     ∀ r, r ∈ filtered → Journey_Status r ≠ Some "Delayed")
  ∧ top_delay_reason (sorting := stable_sorting) filtered ≠ IndexError.
Proof.
  assert (Hload : load_data (H := Reference.parsers) (version := pandas2)
                    (Some four_journeys)
                  = Ok (loaded four_journeys)) by (vm_compute; reflexivity).
  split; [exact Hload|].
  destruct (top_delay_reason_of_loaded_table (sorting := stable_sorting)
              four_journeys _ (only_class "First") ["status"] Hload)
    as (Hnone & _ & Hraise & _).
  split; [exact Hnone|]. apply Hraise. reflexivity.
Defined.


Lemma load_data_keeps_row_order_witness :
  let cleaned := loaded five_tickets in
  load_data (H := Reference.parsers) (version := pandas2) (Some five_tickets)
  = Ok cleaned
  ∧ ∃ kept, kept `sublist_of` five_tickets ∧ Forall2 same_cells kept cleaned.
Proof.
  assert (Hload : load_data (H := Reference.parsers) (version := pandas2)
                    (Some five_tickets)
                  = Ok (loaded five_tickets)) by (vm_compute; reflexivity).
  split; [exact Hload|].
  apply (load_data_keeps_row_order five_tickets _ Hload).
Defined.

Lemma railcard_counts_cover_loaded_table_witness :
  let cleaned := loaded four_journeys in
  copy_on_write (Pandas := pandas2) = false
  ∧ load_data (H := Reference.parsers) (version := pandas2) (Some four_journeys)
    = Ok cleaned
  ∧ sum_list_with snd (railcard_counts (sorting := stable_sorting) cleaned)
    = length cleaned.
Proof.
  assert (Hload : load_data (H := Reference.parsers) (version := pandas2)
                    (Some four_journeys)
                  = Ok (loaded four_journeys)) by (vm_compute; reflexivity).
  split; [reflexivity|]. split; [exact Hload|].
  apply (railcard_counts_cover_loaded_table (version := pandas2)
           (sorting := stable_sorting) four_journeys _ eq_refl Hload).
Defined.
